(** * SEObot: background task queue and worker pipeline

    A shallow embedding of the task store ([database.py]), the text
    generation stage ([services/workflow.py], [generate_content]) and the
    worker ([worker.py], [process_single_task]), with the properties the
    specification states about them; and of the webhook ([app.py]), the
    image and publishing stages ([services/workflow.py],
    [services/imagen.py], [services/wordpress.py]) and the worker loop, with
    further properties of the code. *)

From stdpp Require Import base decidable option list sorting gmap strings pretty.
From Stdlib Require Import ZArith Lia Ascii.

Set Default Proof Using "Type".
Set Warnings "-clear-no-such-hyp".

(** ** Python values carried by a payload *)

(** A payload is the JSON object the webhook stored: [app.py] always builds it
    as a dict, so it is a finite map from keys to values. *)
Inductive PyVal :=
| VNone
| VBool (b : bool)
| VInt (z : Z)
| VStr (s : string).

#[global] Instance PyVal_eq_dec : EqDecision PyVal.
Proof. solve_decision. Defined.

(** Python truthiness ([if v:]). *)
Definition truthy (v : PyVal) : bool :=
  match v with
  | VNone => false
  | VBool b => b
  | VInt z => negb (z =? 0)%Z
  | VStr s => negb (String.eqb s "")
  end.

(** Truthiness of an optional string ([None] and [''] are falsy). *)
Definition truthy_str (o : option string) : bool :=
  match o with
  | Some s => negb (String.eqb s "")
  | None => false
  end.

(** [f"{x}"] for a value that may be [None]. *)
Definition fmt_opt (o : option string) : string :=
  match o with
  | Some s => s
  | None => "None"
  end.

(** [sub in s] on strings. *)
Fixpoint py_in (sub s : string) : bool :=
  String.prefix sub s ||
  match s with
  | String _ s' => py_in sub s'
  | EmptyString => false
  end.

Abbreviation Payload := (gmap string PyVal).

(** ** database.py *)

Module Database.

(** The [status] column: the code writes 'pending', 'processing', 'completed'
    and 'error', and the claim query also tests for 'skip'. *)
Inductive Status := pending | processing | completed | error | skip.

#[global] Instance Status_eq_dec : EqDecision Status.
Proof. solve_decision. Defined.

(** One row of [background_tasks]. [task_id] is the PRIMARY KEY: it is the
    key of the table map below and not a field of the row. *)
Record Row := mkRow {
  task_type : string;
  payload : option string;      (* JSON text, NULL allowed *)
  status : Status;
  created_at : Z;
  updated_at : Z;
  attempts : Z;
  last_error : option string }.

#[global] Instance Row_eq_dec : EqDecision Row.
Proof. solve_decision. Defined.

Abbreviation Table := (gmap string Row).

(** [WORKER_CONFIG] of [config.py]; [None] is an absent key. *)
Record WorkerConfig := mkWorkerConfig {
  max_task_retries : option Z;
  tasks_to_process_per_run : option Z }.

Definition WORKER_CONFIG : WorkerConfig :=
  {| max_task_retries := Some 3%Z; tasks_to_process_per_run := Some 2%Z |}.

(** What [get_pending_tasks] hands to the worker: the four selected columns,
    the payload deserialised. A payload that is NULL stays [None]; one that
    does not parse becomes the empty dict. *)
Record Task := mkTask {
  t_task_id : string;
  t_task_type : string;
  t_payload : option Payload;
  t_attempts : Z }.

(** [add_task]: a row inserted with status 'pending'; [attempts] takes the
    column default 0 and [last_error] is NULL. [conn] is the outcome of
    [get_db_connection] and of the statement; the fresh uuid is [task_id]. *)
Definition add_task (conn : bool) (now : Z) (task_id task_type : string)
    (payload_json : string) (tbl : Table) : Table * option string :=
  if conn then
    match tbl !! task_id with
    | Some _ => (tbl, None)        (* duplicate key: rollback *)
    | None =>
        (<[task_id := {| task_type := task_type; payload := Some payload_json;
                         status := pending; created_at := now; updated_at := now;
                         attempts := 0%Z; last_error := None |}]> tbl,
         Some task_id)
    end
  else (tbl, None).

(** The WHERE clause of [get_pending_tasks]. *)
Definition eligible (max_retries : Z) (r : Row) : Prop :=
  (status r = pending ∨ (status r = error ∧ (attempts r < max_retries)%Z))
  ∧ status r ≠ skip.

#[global] Instance eligible_dec max_retries r : Decision (eligible max_retries r).
Proof. unfold eligible. apply _. Defined.

(** ORDER BY created_at ASC. *)
Definition older (a b : string * Row) : Prop := (created_at a.2 ≤ created_at b.2)%Z.

#[global] Instance older_dec a b : Decision (older a b).
Proof. unfold older. apply _. Defined.

(** The rows that satisfy the WHERE clause, in ascending creation order.
    MySQL leaves the order of rows with equal [created_at] open; the sort
    fixes one. *)
Definition candidates (max_retries : Z) (tbl : Table) : list (string * Row) :=
  merge_sort older (filter (λ kr, eligible max_retries kr.2) (map_to_list tbl)).

(** The SELECT: filter, order, LIMIT. *)
Definition select_rows (max_retries : Z) (limit : nat) (tbl : Table) : list (string * Row) :=
  take limit (candidates max_retries tbl).

Section Select.
(** [json.loads] on the stored text, which [add_task] wrote from a dict;
    [None] is a [JSONDecodeError]. *)
Variable json_loads : string → option Payload.

Definition load_payload (p : option string) : option Payload :=
  match p with
  | Some s =>
      if String.eqb s "" then None
      else Some (default ∅ (json_loads s))
  | None => None
  end.

Definition row_to_task (kr : string * Row) : Task :=
  {| t_task_id := kr.1; t_task_type := task_type kr.2;
     t_payload := load_payload (payload kr.2); t_attempts := attempts kr.2 |}.

(** [get_pending_tasks(limit)]. Without a connection, or when the statement
    fails (a negative LIMIT is rejected by the server), the result is []. *)
Definition get_pending_tasks (cfg : WorkerConfig) (conn : bool) (limit : Z)
    (tbl : Table) : list Task :=
  if conn then
    if (limit <? 0)%Z then []
    else row_to_task <$> select_rows (default 3%Z (max_task_retries cfg)) (Z.to_nat limit) tbl
  else [].
End Select.

(** The SET clause of [update_task_status]:
    [attempts = IFNULL(%s, attempts)], [last_error = %s]. *)
Definition set_row (now : Z) (st : Status) (att : option Z) (err : option string)
    (r : Row) : Row :=
  {| task_type := task_type r; payload := payload r; status := st;
     created_at := created_at r; updated_at := now;
     attempts := default (attempts r) att; last_error := err |}.

(** [update_task_status(task_id, status, attempts=None, error_message=None)].
    The WHERE clause is [task_id = %s] alone. [cursor.rowcount] is the number
    of rows the statement changed (the connection does not ask for
    found-rows counting), so the result is [true] when the row exists and
    the write altered it. [conn = false] stands for a missing connection or
    a failed statement: nothing is written and the result is [False]. *)
Definition update_task_status (conn : bool) (now : Z) (task_id : string)
    (st : Status) (att : option Z) (err : option string) (tbl : Table) : Table * bool :=
  if conn then
    match tbl !! task_id with
    | Some r =>
        let r' := set_row now st att err r in
        (<[task_id := r']> tbl, bool_decide (r' ≠ r))
    | None => (tbl, false)
    end
  else (tbl, false).

(** [mark_task_processing(task_id, attempts)]. *)
Definition mark_task_processing (conn : bool) (now : Z) (task_id : string)
    (attempts : Z) (tbl : Table) : Table * bool :=
  update_task_status conn now task_id processing (Some (attempts + 1)%Z) None tbl.

End Database.


(** ** services/workflow.py: the text generation stage *)

Module Workflow.

(** *** The string operations the stage uses

    Texts are modelled over the ASCII range. *)

(** [str.isspace] on one character: TAB..CR, FS..US and the space. *)
Definition py_isspace (c : ascii) : bool :=
  let n := nat_of_ascii c in
  ((9 <=? n) && (n <=? 13)) || ((28 <=? n) && (n <=? 32)).

Fixpoint py_lstrip (s : string) : string :=
  match s with
  | String c s' => if py_isspace c then py_lstrip s' else s
  | EmptyString => EmptyString
  end.

(** [s.strip()]. *)
Definition py_strip (s : string) : string :=
  String.rev (py_lstrip (String.rev (py_lstrip s))).

(** Number of maximal runs of non-space characters; [in_word] says whether
    the previous character belonged to a word. *)
Fixpoint count_words (in_word : bool) (s : string) : Z :=
  match s with
  | String c s' =>
      if py_isspace c then count_words false s'
      else ((if in_word then 0 else 1) + count_words true s')%Z
  | EmptyString => 0%Z
  end.

(** [len(s.split())]. *)
Definition word_count (s : string) : Z := count_words false s.

Definition py_lower_char (c : ascii) : ascii :=
  let n := nat_of_ascii c in
  if (65 <=? n) && (n <=? 90) then ascii_of_nat (n + 32) else c.

(** [s.lower()]. *)
Fixpoint py_lower (s : string) : string :=
  match s with
  | String c s' => String (py_lower_char c) (py_lower s')
  | EmptyString => EmptyString
  end.

(** The "basic validity check": fewer than 100 words, or a refusal phrase
    near the start of the text. *)
Definition looks_invalid (content_raw : string) : bool :=
  (word_count content_raw <? 100)%Z
  || py_in "sorry" (String.substring 0 100 (py_lower content_raw))
  || py_in "cannot fulfill" (String.substring 0 150 (py_lower content_raw)).

(** [actual_w_count >= target_w_count * 0.9]. The right-hand side is a double;
    for targets of any realistic size (below 10^15 in absolute value) the
    product is within a fraction of 0.1 of the exact 0.9 * target and is the
    exact integer when 0.9 * target is one, so the comparison with the
    integer word count agrees with the exact one written here. *)
Definition meets_word_count (actual_w_count target_w_count : Z) : bool :=
  (9 * target_w_count <=? 10 * actual_w_count)%Z.

(** *** The retry loop *)

(** What one [anthropic_client.messages.create] call does, as the handlers of
    [generate_content] tell them apart. *)
Inductive ApiOutcome :=
| ApiText (text : string)                  (* message.content[0].text *)
| ApiConnectionError (e : string)
| ApiRateLimitError (e : string)
| ApiStatusError (status_code : Z) (response : string)
| ApiValueError (e : string)
| ApiOtherError (e : string).

(** The outcome of one pass through the loop body up to the retry logic:
    either the function returns, or the locals [last_error] and
    [final_content_for_processing] are carried to the retry logic. *)
Inductive Step :=
| Return (content : option string) (err : option string)
| Retry (last_error : option string) (final_content_for_processing : option string).

(** The result of [generate_content]: the pair the code returns, and the
    number of [messages.create] calls it made. *)
Record GenResult := mkGenResult {
  gen_content : option string;
  gen_error : option string;
  api_calls : nat }.

Section GenerateContent.

(** [self.anthropic_client is not None] and [self.max_retries]. *)
Variable client_available : bool.
Variable max_retries : Z.
(** [_process_claude_link_suggestions(content, keyword)]. *)
Variable process_links : string → string.
(** The outcome of the n-th API call of this invocation (from 0). *)
Variable api : nat → ApiOutcome.

Definition attempt (target_w_count : Z) (last_error final_content : option string)
    (o : ApiOutcome) : Step :=
  match o with
  | ApiText text =>
      let content_raw := py_strip text in
      let actual_w_count := word_count content_raw in
      if looks_invalid content_raw then
        Retry (Some "Generated content potentially invalid or refused.") (Some content_raw)
      else if meets_word_count actual_w_count target_w_count then
        Return (Some (process_links content_raw)) None
      else
        Retry (Some ("Word count " +:+ pretty actual_w_count +:+
                     " is less than 90% of target " +:+ pretty target_w_count))
              (Some content_raw)
  | ApiConnectionError e => Retry (Some ("Anthropic API conn error: " +:+ e)) final_content
  | ApiRateLimitError e => Retry (Some ("Anthropic rate limit exceeded: " +:+ e)) final_content
  | ApiStatusError code resp =>
      Retry (Some ("Anthropic API status error (" +:+ pretty code +:+ "): " +:+ resp))
            final_content
  | ApiValueError e => Retry (Some e) final_content
  | ApiOtherError e =>
      Retry (Some ("Unexpected error during Claude generation: " +:+ e)) final_content
  end.

(** [while retries <= self.max_retries: ...]. [fuel] bounds the number of
    iterations; [calls] counts the API calls made so far and equals
    [retries]. When the loop condition is false the code falls to the last
    line of the function. *)
Fixpoint attempts_loop (fuel : nat) (target_w_count retries : Z) (calls : nat)
    (last_error final_content : option string) : GenResult :=
  match fuel with
  | O => mkGenResult None (Some "Exceeded max retries") calls
  | S fuel' =>
      if bool_decide (retries ≤ max_retries)%Z then
        match attempt target_w_count last_error final_content (api calls) with
        | Return c e => mkGenResult c e (S calls)
        | Retry last_error' final_content' =>
            let retries' := (retries + 1)%Z in
            if bool_decide (retries' ≤ max_retries)%Z then
              attempts_loop fuel' target_w_count retries' (S calls) last_error' final_content'
            else if truthy_str final_content' then
              mkGenResult (Some (process_links (default "" final_content'))) last_error' (S calls)
            else mkGenResult None last_error' (S calls)
        end
      else mkGenResult None (Some "Exceeded max retries") calls
  end.

(** [generate_content(brief)]; [prompt] is what [_generate_claude_prompt]
    returned and [target_w_count] is [int(brief.get('target_word_count', 1500))]. *)
Definition generate_content (prompt : option string) (target_w_count : Z) : GenResult :=
  if negb client_available then mkGenResult None (Some "Anthropic client not initialized") 0
  else if negb (truthy_str prompt) then mkGenResult None (Some "Prompt generation failed") 0
  else attempts_loop (Z.to_nat (max_retries + 1)) target_w_count 0 0 None None.

End GenerateContent.

(** *** Notions used to state the properties *)



End Workflow.

(** ** worker.py *)

Module Worker.
Import Database.

(** A collaborator call either returns or raises an [Exception]; the
    message is [str(e)]. *)
Inductive Outcome (A : Type) :=
| Returned (a : A)
| Raised (msg : string).
Arguments Returned {A} a.
Arguments Raised {A} msg.

(** The dict [post_content_to_wordpress] returns; [None] fields are absent
    keys. *)
Record BlogPost := mkBlogPost {
  bp_status : option string;
  bp_id : option Z;
  bp_url : option string;
  bp_error : option string }.

Record CategoryUpdate := mkCategoryUpdate {
  cu_status : option string;
  cu_error : option string }.

Record PostResult := mkPostResult {
  blog_post : option BlogPost;
  category_update : option CategoryUpdate }.

(** Service initialisation: the two handlers tell a [ValueError] from any
    other exception. *)
Inductive InitOutcome :=
| InitOk
| InitValueError (msg : string)
| InitException (msg : string).

(** [requests.post(...)]: a response with its status code, or an exception of
    one of the three classes the handlers tell apart. *)
Inductive PostOutcome :=
| Response (status_code : Z)
| RequestException (msg : string)
| ValueErrorRaised (msg : string)
| OtherException (msg : string).

(** Everything outside the worker that one execution of
    [process_single_task] meets. *)
Record Env := mkEnv {
  db_conn : nat → bool;            (* the n-th store call gets through *)
  db_now : nat → Z;                (* datetime.now() at the n-th store call *)
  init_services : InitOutcome;
  generate_content : Outcome (option string * option string);
  generate_and_upload_featured_image : Outcome (option Z);
  post_content_to_wordpress : Outcome (option PostResult);
  unbound_local_msg : string;      (* str() of the UnboundLocalError *)
  wp_credentials : bool;           (* WP_API_USER and WP_API_APP_PASSWORD are set *)
  default_callback_url : PyVal;    (* config.WP_CONFIG.get('callback_url') *)
  requests_post : PostOutcome;
  http_error_msg : Z → string }.   (* str() of the HTTPError for a status code *)

Record CallbackPayload := mkCallbackPayload {
  cp_brief_id : PyVal;
  cp_task_id : string;
  cp_status : string;
  cp_generated_content : option string;
  cp_featured_image_id : option Z;
  cp_generated_post_id : option Z;
  cp_generated_post_url : option string;
  cp_error_message : option string }.

Definition set_generated_content (v : option string) (cp : CallbackPayload) :=
  mkCallbackPayload (cp_brief_id cp) (cp_task_id cp) (cp_status cp) v
    (cp_featured_image_id cp) (cp_generated_post_id cp) (cp_generated_post_url cp)
    (cp_error_message cp).

Definition set_featured_image_id (v : option Z) (cp : CallbackPayload) :=
  mkCallbackPayload (cp_brief_id cp) (cp_task_id cp) (cp_status cp) (cp_generated_content cp)
    v (cp_generated_post_id cp) (cp_generated_post_url cp) (cp_error_message cp).

Definition set_post (id : option Z) (url : option string) (cp : CallbackPayload) :=
  mkCallbackPayload (cp_brief_id cp) (cp_task_id cp) (cp_status cp) (cp_generated_content cp)
    (cp_featured_image_id cp) id url (cp_error_message cp).

Definition set_status (v : string) (cp : CallbackPayload) :=
  mkCallbackPayload (cp_brief_id cp) (cp_task_id cp) v (cp_generated_content cp)
    (cp_featured_image_id cp) (cp_generated_post_id cp) (cp_generated_post_url cp)
    (cp_error_message cp).

Definition set_error_message (v : option string) (cp : CallbackPayload) :=
  mkCallbackPayload (cp_brief_id cp) (cp_task_id cp) (cp_status cp) (cp_generated_content cp)
    (cp_featured_image_id cp) (cp_generated_post_id cp) (cp_generated_post_url cp) v.

(** The calls that leave the worker, in the order they are made. *)
Inductive Event :=
| EvUpdateTaskStatus (task_id : string) (st : Status) (att : option Z) (err : option string)
| EvMarkTaskProcessing (task_id : string) (attempts : Z)
| EvGenerateContent (keyword prompt target_word_count : PyVal)
| EvGenerateImage (keyword : PyVal) (content_snippet : string)
| EvPostToWordpress (content : string) (featured_image_id : option Z)
| EvCallbackPost (url : PyVal) (data : list (string * PyVal)).

(** The locals the try block leaves behind, the exception it raised if any
    (before the handler runs), and the calls it made. *)
Record TryResult := mkTryResult {
  tr_payload : CallbackPayload;
  tr_status : Status;
  tr_raised : option string;
  tr_events : list Event }.

Definition required_payload_keys : list string :=
  ["brief_id"; "prompt"; "target_word_count"; "keyword"; "callback_url"].

Definition missing_keys (payload : Payload) : list string :=
  filter (λ key, payload !! key = None) required_payload_keys.

(** [payload[key]] for a key that validation has found present. *)
Definition item (payload : Payload) (key : string) : PyVal :=
  default VNone (payload !! key).

Definition opt_is (o : option string) (s : string) : bool :=
  bool_decide (o = Some s).

(** The branch on [post_result] (lines 233-262), entered with [post_result]
    bound. *)
Definition after_post (post_result : option PostResult) (gen_error : option string)
    (cp : CallbackPayload) : CallbackPayload * Status :=
  let blog_post_info := post_result ≫= blog_post in
  let blog_status := blog_post_info ≫= bp_status in
  if bool_decide (is_Some post_result) && opt_is blog_status "success" then
    let cp1 := set_post (blog_post_info ≫= bp_id) (blog_post_info ≫= bp_url) cp in
    let cp2 := set_error_message None (set_status "success" cp1) in
    let category_update_info := post_result ≫= category_update in
    if opt_is (category_update_info ≫= cu_status) "error" then
      (set_error_message
         (Some ("Blog post created, but category update failed: " +:+
                fmt_opt (category_update_info ≫= cu_error))) cp2, completed)
    else (cp2, completed)
  else if bool_decide (is_Some post_result) && opt_is blog_status "error" then
    let error_detail := default "Unknown WP error" (blog_post_info ≫= bp_error) in
    (set_error_message
       (Some ("Content generated, but WP post creation failed: " +:+ error_detail)) cp, error)
  else
    (set_error_message (Some ("Content generation failed: " +:+ fmt_opt gen_error)) cp, error).

(** The body of the [try] for a 'generate_content' task. [post_result] is
    assigned only under [if generated_content:], so reading it afterwards
    raises [UnboundLocalError] when no content came back. *)
Definition run_generate (env : Env) (payload : Payload) (cp : CallbackPayload) : TryResult :=
  let ev_gen := EvGenerateContent (item payload "keyword") (item payload "prompt")
                  (item payload "target_word_count") in
  match generate_content env with
  | Raised msg => mkTryResult cp error (Some msg) [ev_gen]
  | Returned (generated_content, gen_error) =>
      if truthy_str generated_content then
        let content := default "" generated_content in
        let cp1 := set_generated_content generated_content cp in
        let ev_img := EvGenerateImage (item payload "keyword") (String.substring 0 500 content) in
        match generate_and_upload_featured_image env with
        | Raised msg => mkTryResult cp1 error (Some msg) [ev_gen; ev_img]
        | Returned featured_image_id =>
            let cp2 := set_featured_image_id featured_image_id cp1 in
            let ev_post := EvPostToWordpress content featured_image_id in
            match post_content_to_wordpress env with
            | Raised msg => mkTryResult cp2 error (Some msg) [ev_gen; ev_img; ev_post]
            | Returned post_result =>
                let '(cp3, st) := after_post post_result gen_error cp2 in
                mkTryResult cp3 st None [ev_gen; ev_img; ev_post]
            end
        end
      else mkTryResult cp error (Some (unbound_local_msg env)) [ev_gen]
  end.

(** The [try] block with its [except Exception] handler. *)
Definition run_task (env : Env) (task : Task) (payload : Payload) (cp : CallbackPayload)
    : TryResult :=
  let r :=
    if String.eqb (t_task_type task) "generate_content" then run_generate env payload cp
    else mkTryResult
           (set_error_message (Some ("Unknown task type received: " +:+ t_task_type task)) cp)
           error None [] in
  match tr_raised r with
  | Some msg =>
      let error_msg := "Unexpected error processing task " +:+ t_task_id task +:+ ": " +:+ msg in
      mkTryResult (set_status "error" (set_error_message (Some error_msg) (tr_payload r)))
                  error None (tr_events r)
  | None => r
  end.

Definition opt_val {A} (f : A → PyVal) (o : option A) : PyVal :=
  match o with Some a => f a | None => VNone end.

(** [wp_callback_data_clean]: the callback body without its [None] entries. *)
Definition wp_callback_data_clean (cp : CallbackPayload) : list (string * PyVal) :=
  filter (λ kv, kv.2 ≠ VNone)
    [("brief_id", cp_brief_id cp);
     ("task_id", VStr (cp_task_id cp));
     ("status", VStr (cp_status cp));
     ("generated_post_id", opt_val VInt (cp_generated_post_id cp));
     ("generated_post_url", opt_val VStr (cp_generated_post_url cp));
     ("featured_image_id", opt_val VInt (cp_featured_image_id cp));
     ("error_message", opt_val VStr (cp_error_message cp))].

(** [response.raise_for_status()] raises an [HTTPError], a
    [RequestException], for the status codes 400 to 599 and for no other. *)
Definition raise_for_status (status_code : Z) : bool :=
  bool_decide (400 ≤ status_code < 600)%Z.

(** The callback part of the [finally] block: the updated locals and the
    calls made. *)
Definition send_callback (env : Env) (task_id : string) (payload : Payload)
    (cp : CallbackPayload) (final_task_status : Status)
    : CallbackPayload * Status * list Event :=
  let callback_url := default (default_callback_url env) (payload !! "callback_url") in
  if truthy callback_url then
    if negb (wp_credentials env) then
      (set_error_message
         (Some ("Callback failed for task " +:+ task_id +:+
                ": Missing WP API credentials for callback.")) cp, error, [])
    else
      let ev := EvCallbackPost callback_url (wp_callback_data_clean cp) in
      let request_failed req_err :=
        (set_error_message
           (Some ("Processing status was '" +:+ cp_status cp +:+
                  "', but callback failed: " +:+ req_err)) cp, error, [ev]) in
      match requests_post env with
      | Response status_code =>
          if raise_for_status status_code then request_failed (http_error_msg env status_code)
          else (cp, final_task_status, [ev])
      | RequestException req_err => request_failed req_err
      | ValueErrorRaised val_err =>
          (set_error_message
             (Some ("Callback failed for task " +:+ task_id +:+ ": " +:+ val_err)) cp,
           error, [ev])
      | OtherException cb_err =>
          (set_error_message (Some ("Callback error: " +:+ cb_err)) cp, error, [ev])
      end
  else
    (set_error_message (Some "Missing callback URL in task payload") cp, final_task_status, []).

(** The initial value of [callback_payload]. *)
Definition initial_callback_payload (task_id : string) (payload : Payload) : CallbackPayload :=
  mkCallbackPayload (item payload "brief_id") task_id "error" None None None None
    (Some "Task execution did not complete successfully.").

(** What the [try]/[except]/[finally] statement hands to the final status
    write, and the calls it made before it. *)
Record Finish := mkFinish {
  fin_status : Status;
  fin_error : option string;
  fin_events : list Event }.

Definition finish (env : Env) (task : Task) (payload : Payload) : Finish :=
  let r := run_task env task payload (initial_callback_payload (t_task_id task) payload) in
  let '(cp, final_task_status, cb_events) :=
    send_callback env (t_task_id task) payload (tr_payload r) (tr_status r) in
  mkFinish final_task_status (cp_error_message cp) (tr_events r ++ cb_events).

(** One call of [database.update_task_status(task_id, status,
    error_message=...)], the n-th store call of the execution. *)
Definition write_status (env : Env) (n : nat) (task_id : string) (st : Status)
    (err : option string) (tbl : Table) : Table * list Event :=
  ((update_task_status (db_conn env n) (db_now env n) task_id st None err tbl).1,
   [EvUpdateTaskStatus task_id st None err]).

(** [process_single_task] from the service initialisation on, entered once
    the task is marked 'processing'. *)
Definition after_claim (env : Env) (task : Task) (payload : Payload) (tbl : Table)
    : Table * list Event :=
  let task_id := t_task_id task in
  match init_services env with
  | InitValueError ve => write_status env 1 task_id error (Some ve) tbl
  | InitException init_err =>
      write_status env 1 task_id error
        (Some ("Unexpected error initializing services for task " +:+ task_id +:+
               ": " +:+ init_err)) tbl
  | InitOk =>
      let f := finish env task payload in
      let '(tbl', evs) := write_status env 1 task_id (fin_status f) (fin_error f) tbl in
      (tbl', fin_events f ++ evs)
  end.

(** [process_single_task(task)] on the store [tbl]: the store it leaves and
    the calls it made. The first store call of an execution has index 0 in
    [db_conn] and [db_now], the second has index 1. *)
Definition process_single_task (env : Env) (task : Task) (tbl : Table) : Table * list Event :=
  let task_id := t_task_id task in
  let attempts := t_attempts task in
  match t_payload task with
  | None => write_status env 0 task_id error (Some "Invalid or empty payload received.") tbl
  | Some payload =>
      if bool_decide (payload = ∅) then
        write_status env 0 task_id error (Some "Invalid or empty payload received.") tbl
      else if negb (bool_decide (missing_keys payload = [])) then
        write_status env 0 task_id error
          (Some ("Task " +:+ task_id +:+ " payload missing required keys: " +:+
                 String.concat ", " (missing_keys payload))) tbl
      else
        let '(tbl1, marked) :=
          mark_task_processing (db_conn env 0) (db_now env 0) task_id attempts tbl in
        let ev_mark := EvMarkTaskProcessing task_id attempts in
        if negb marked then (tbl1, [ev_mark])
        else
          let '(tbl2, evs) := after_claim env task payload tbl1 in
          (tbl2, ev_mark :: evs)
  end.

(** One pass of [run_worker_loop]: fetch one task and process it. *)
Definition worker_cycle (json_loads : string → option Payload) (cfg : WorkerConfig)
    (fetch_conn : bool) (env : Env) (tbl : Table) : Table * list Event :=
  match get_pending_tasks json_loads cfg fetch_conn 1 tbl with
  | task_to_process :: _ => process_single_task env task_to_process tbl
  | [] => (tbl, [])
  end.

(** A finite run of [run_worker_loop]: one cycle per entry of the list, which
    gives the outcome of the fetch's store call and the environment of the
    execution. *)
Fixpoint run_worker_loop (json_loads : string → option Payload) (cfg : WorkerConfig)
    (cycles : list (bool * Env)) (tbl : Table) : Table * list Event :=
  match cycles with
  | [] => (tbl, [])
  | (fetch_conn, env) :: cycles' =>
      let '(tbl1, evs) := worker_cycle json_loads cfg fetch_conn env tbl in
      let '(tbl2, evs') := run_worker_loop json_loads cfg cycles' tbl1 in
      (tbl2, evs ++ evs')
  end.

(** The worker fetching and processing the same task once per environment
    of the list. *)
Fixpoint run_rounds (envs : list Env) (task : Task) (tbl : Table) : Table * list Event :=
  match envs with
  | [] => (tbl, [])
  | env :: envs' =>
      let '(tbl1, evs) := process_single_task env task tbl in
      let '(tbl2, evs') := run_rounds envs' task tbl1 in
      (tbl2, evs ++ evs')
  end.

(** *** Notions used to state the properties *)

(** The task passed validation and the worker's claim of it succeeded. *)
Definition claimed (env : Env) (task : Task) (payload : Payload) (tbl : Table) : Prop :=
  t_payload task = Some payload
  ∧ missing_keys payload = []
  ∧ (mark_task_processing (db_conn env 0) (db_now env 0) (t_task_id task)
       (t_attempts task) tbl).2 = true.

(** Every stage of the pipeline succeeded: text came back, the image call
    returned, and the post was created. *)
Definition pipeline_succeeded (env : Env) (task : Task) : Prop :=
  t_task_type task = "generate_content"
  ∧ ∃ content gen_error image post bp,
      generate_content env = Returned (Some content, gen_error) ∧ content ≠ ""
      ∧ generate_and_upload_featured_image env = Returned image
      ∧ post_content_to_wordpress env = Returned (Some post)
      ∧ blog_post post = Some bp ∧ bp_status bp = Some "success".

(** The post was created but the category part reported an error. *)
Definition category_update_failed (env : Env) : Prop :=
  ∃ post cu, post_content_to_wordpress env = Returned (Some post)
             ∧ category_update post = Some cu ∧ cu_status cu = Some "error".

(** The payload does not pass the validation at the head of
    [process_single_task]. *)
Definition fails_validation (p : option Payload) : Prop :=
  match p with
  | Some payload => missing_keys payload ≠ []
  | None => True
  end.

Definition is_status_write (task_id : string) (ev : Event) : Prop :=
  ∃ msg, ev = EvUpdateTaskStatus task_id error None (Some msg).

Definition is_callback_post (ev : Event) : Prop :=
  ∃ url data, ev = EvCallbackPost url data.

End Worker.

(** ** Sample data *)

Module Samples.
Import Database Worker.

Definition full_payload (callback_url : PyVal) : Payload :=
  <["brief_id" := VInt 42]> (<["prompt" := VStr "Write about pool tables"]>
  (<["target_word_count" := VInt 1500]> (<["keyword" := VStr "pool tables"]>
  (<["callback_url" := callback_url]> ∅)))).

Definition callback_endpoint : PyVal := VStr "https://example.com/wp-json/acb/v1/callback".

(** A payload without 'keyword'. *)
Definition payload_without_keyword : Payload := delete "keyword" (full_payload callback_endpoint).

Definition queued_row : Row :=
  {| task_type := "generate_content"; payload := Some "{...}"; status := pending;
     created_at := 100; updated_at := 100; attempts := 0; last_error := None |}.

Definition one_task : Table := {["task-1" := queued_row]}.

Definition three_tasks : Table :=
  <["task-1" := queued_row]>
  (<["task-2" := {| task_type := "generate_content"; payload := Some "{...}";
                    status := error; created_at := 90; updated_at := 95; attempts := 3;
                    last_error := Some "boom" |}]>
  (<["task-3" := {| task_type := "generate_content"; payload := Some "{...}";
                    status := error; created_at := 80; updated_at := 85; attempts := 1;
                    last_error := Some "boom" |}]> ∅)).

(** A text of [n] words. *)
Fixpoint repeat_word (n : nat) : string :=
  match n with
  | O => ""
  | S n' => "word " +:+ repeat_word n'
  end.

Definition task_with (p : option Payload) : Task :=
  {| t_task_id := "task-1"; t_task_type := "generate_content"; t_payload := p;
     t_attempts := 0 |}.

Definition published : option PostResult :=
  Some {| blog_post := Some {| bp_status := Some "success"; bp_id := Some 77%Z;
                               bp_url := Some "https://example.com/?p=77"; bp_error := None |};
          category_update := Some {| cu_status := Some "not_applicable"; cu_error := None |} |}.


(** An environment in which the store answers when [final_write] holds for
    the second call, the services start, and the collaborators answer as
    given. *)
Definition env_with (final_write : bool) (gen : Outcome (option string * option string))
    (post : Outcome (option PostResult)) (req : PostOutcome) : Env :=
  {| db_conn := λ n, if decide (n = 1) then final_write else true;
     db_now := λ n, (101 + Z.of_nat n)%Z;
     init_services := InitOk;
     generate_content := gen;
     generate_and_upload_featured_image := Returned (Some 9%Z);
     post_content_to_wordpress := post;
     unbound_local_msg :=
       "cannot access local variable 'post_result' where it is not associated with a value";
     wp_credentials := true;
     default_callback_url := VNone;
     requests_post := req;
     http_error_msg := λ code, pretty code +:+ " Server Error" |}.

Definition generated : Outcome (option string * option string) :=
  Returned (Some "<h2>Pool tables</h2><p>...</p>", None).



Definition happy_env : Env := env_with true generated (Returned published) (Response 200).

End Samples.

(** ** Further notions used to state properties *)

Module Notions.
Import Database Worker.

(** [tbl'] has the rows of [tbl], differs from it in the row [id] at most, and
    that row kept its type, payload and creation time. *)
Definition touches_only (id : string) (tbl tbl' : Table) : Prop :=
  dom tbl' = dom tbl
  ∧ (∀ id', id' ≠ id → tbl' !! id' = tbl !! id')
  ∧ (∀ r', tbl' !! id = Some r' →
       ∃ r, tbl !! id = Some r ∧ task_type r' = task_type r ∧ payload r' = payload r
            ∧ created_at r' = created_at r).

(** The environment [env] with another answer of the image stage. *)
Definition with_image (o : Outcome (option Z)) (env : Env) : Env :=
  {| db_conn := db_conn env; db_now := db_now env; init_services := init_services env;
     generate_content := generate_content env;
     generate_and_upload_featured_image := o;
     post_content_to_wordpress := post_content_to_wordpress env;
     unbound_local_msg := unbound_local_msg env; wp_credentials := wp_credentials env;
     default_callback_url := default_callback_url env; requests_post := requests_post env;
     http_error_msg := http_error_msg env |}.

(** The place of a call in the order of an execution. *)
Definition stage_rank (ev : Event) : nat :=
  match ev with
  | EvMarkTaskProcessing _ _ => 0
  | EvGenerateContent _ _ _ => 1
  | EvGenerateImage _ _ => 2
  | EvPostToWordpress _ _ => 3
  | EvCallbackPost _ _ => 4
  | EvUpdateTaskStatus _ _ _ _ => 5
  end.

Definition is_stage_call (ev : Event) : Prop :=
  match ev with
  | EvGenerateContent _ _ _ | EvGenerateImage _ _ | EvPostToWordpress _ _ => True
  | _ => False
  end.

(** The callback is posted and answered with a status code that
    [raise_for_status] lets through. *)
Definition callback_delivered (env : Env) (payload : Payload) : Prop :=
  truthy (item payload "callback_url") = true ∧ wp_credentials env = true
  ∧ ∃ code, requests_post env = Response code ∧ raise_for_status code = false.

(** [tbl'] has the tasks of [tbl], each with the type, payload and creation
    time it had. *)
Definition same_tasks (tbl tbl' : Table) : Prop :=
  dom tbl' = dom tbl
  ∧ ∀ id r', tbl' !! id = Some r' →
      ∃ r, tbl !! id = Some r ∧ task_type r' = task_type r ∧ payload r' = payload r
           ∧ created_at r' = created_at r.

(** The callback posts of a list of calls. *)
Definition callback_posts (evs : list Event) : list (PyVal * list (string * PyVal)) :=
  omap (λ ev, match ev with EvCallbackPost url data => Some (url, data) | _ => None end) evs.

End Notions.

(** ** app.py: the webhook *)

Module App.
Import Database.

(** A JSON value as [request.get_json()] returns it. An array element that
    is not a scalar never equals a field name; such elements are left out. *)
Inductive Json :=
| JObject (d : Payload)
| JArray (l : list PyVal)
| JScalar (v : PyVal).

Record Request := mkRequest {
  x_plugin_token : option string;     (* request.headers.get('X-Plugin-Token') *)
  is_json : bool;                     (* request.is_json *)
  get_json : option Json }.           (* None: the body does not parse *)

(** What the view answers: [jsonify({...}), code], or the error page Flask
    sends when an exception leaves the view. *)
Inductive Reply :=
| Jsonify (code : Z) (status : string) (message : option string) (task_id : option string)
| Abort (code : Z).

Definition is_request_authenticated (WP_PLUGIN_SECRET_TOKEN : option string)
    (request : Request) : bool :=
  let provided_token := x_plugin_token request in
  if negb (truthy_str provided_token) then false
  else bool_decide (provided_token = WP_PLUGIN_SECRET_TOKEN).

Definition required_fields : list string :=
  ["brief_id"; "prompt"; "target_word_count"; "keyword"; "callback_url"].

(** [field in data]; [None] is the [TypeError] of a value that is no
    container. *)
Definition contains (data : Json) (field : string) : option bool :=
  match data with
  | JObject d => Some (bool_decide (is_Some (d !! field)))
  | JArray l => Some (bool_decide (VStr field ∈ l))
  | JScalar (VStr s) => Some (py_in field s)
  | JScalar _ => None
  end.

(** [[field for field in required_fields if field not in data]]. *)
Definition missing_fields (data : Json) : option (list string) :=
  match contains data "brief_id" with
  | None => None
  | Some _ => Some (filter (λ field, contains data field = Some false) required_fields)
  end.

(** The dict literal of step 3: the five required entries of the body. *)
Definition task_payload (data : Payload) : Payload :=
  <["brief_id" := Worker.item data "brief_id"]>
  (<["prompt" := Worker.item data "prompt"]>
  (<["target_word_count" := Worker.item data "target_word_count"]>
  (<["keyword" := Worker.item data "keyword"]>
  (<["callback_url" := Worker.item data "callback_url"]> ∅)))).

Section TriggerGeneration.
(** [config.WP_PLUGIN_SECRET_TOKEN]. *)
Variable WP_PLUGIN_SECRET_TOKEN : option string.
(** [json.dumps] on the payload dict, inside [add_task]. *)
Variable json_dumps : Payload → string.

(** [trigger_generation()] on the store [tbl]; [conn], [now] and [task_id]
    are what [add_task] meets: the store call's outcome, the clock and the
    uuid it draws. *)
Definition trigger_generation (conn : bool) (now : Z) (task_id : string)
    (request : Request) (tbl : Table) : Table * Reply :=
  if negb (is_request_authenticated WP_PLUGIN_SECRET_TOKEN request) then
    (tbl, Jsonify 403 "error" (Some "Authentication failed") None)
  else if negb (is_json request) then
    (tbl, Jsonify 400 "error" (Some "Request must be JSON") None)
  else
    match get_json request with
    | None => (tbl, Abort 400)
    | Some data =>
        match missing_fields data with
        | None => (tbl, Abort 500)
        | Some (field :: fields) =>
            (tbl, Jsonify 400 "error"
                    (Some ("Missing required fields: " +:+
                           String.concat ", " (field :: fields))) None)
        | Some [] =>
            match data with
            | JObject d =>
                match add_task conn now task_id "generate_content"
                        (json_dumps (task_payload d)) tbl with
                | (tbl', Some id) => (tbl', Jsonify 202 "queued" None (Some id))
                | (tbl', None) =>
                    (tbl', Jsonify 500 "error" (Some "Failed to queue task") None)
                end
            | _ =>
                (* data['brief_id'] on a list or a str: TypeError, caught *)
                (tbl, Jsonify 500 "error" (Some "Internal server error") None)
            end
        end
    end.

End TriggerGeneration.

(** *** Notions used to state the properties *)

(** The request was answered with 202 and the id of the queued task. *)
Definition queued (reply : Reply) (id : string) : Prop :=
  reply = Jsonify 202 "queued" None (Some id).

End App.

(** ** Python string operations of the image and publishing stages *)

Module PyStr.
Import Workflow.

Definition dquote : string := String (ascii_of_nat 34) "".

(** [str(v)], as an f-string formats a value. *)
Definition py_str (v : PyVal) : string :=
  match v with
  | VNone => "None"
  | VBool true => "True"
  | VBool false => "False"
  | VInt z => pretty z
  | VStr s => s
  end.

Definition type_name (v : PyVal) : string :=
  match v with
  | VNone => "NoneType"
  | VBool _ => "bool"
  | VInt _ => "int"
  | VStr _ => "str"
  end.

(** [str(e)] of the [AttributeError] for a missing method. *)
Definition attribute_error (ty attr : string) : string :=
  "'" +:+ ty +:+ "' object has no attribute '" +:+ attr +:+ "'".

Definition is_upper (c : ascii) : bool :=
  let n := nat_of_ascii c in (65 <=? n) && (n <=? 90).

Definition is_lower (c : ascii) : bool :=
  let n := nat_of_ascii c in (97 <=? n) && (n <=? 122).

Definition py_upper_char (c : ascii) : ascii :=
  if is_lower c then ascii_of_nat (nat_of_ascii c - 32) else c.

(** [s.title()]: a cased character is upper-cased when it follows an uncased
    one and lower-cased otherwise. *)
Fixpoint title_from (previous_is_cased : bool) (s : string) : string :=
  match s with
  | String c s' =>
      String (if previous_is_cased then py_lower_char c else py_upper_char c)
             (title_from (is_upper c || is_lower c) s')
  | EmptyString => EmptyString
  end.

Definition py_title (s : string) : string := title_from false s.

(** [s.replace(' ', '-')]. *)
Fixpoint spaces_to_dashes (s : string) : string :=
  match s with
  | String c s' => String (if Ascii.eqb c " " then "-"%char else c) (spaces_to_dashes s')
  | EmptyString => EmptyString
  end.

(** [html.escape(s)], with [quote=True]. *)
Fixpoint html_escape (s : string) : string :=
  match s with
  | String c s' =>
      (if Ascii.eqb c "&" then "&amp;"
       else if Ascii.eqb c "<" then "&lt;"
       else if Ascii.eqb c ">" then "&gt;"
       else if Ascii.eqb c (ascii_of_nat 34) then "&quot;"
       else if Ascii.eqb c "'" then "&#x27;"
       else String c "") +:+ html_escape s'
  | EmptyString => EmptyString
  end.

(** [s.find(sub)]; [None] is -1. *)
Definition find (sub s : string) : option nat := String.index 0 sub s.

(** [s[a:b]] and [s[a:]] for indices that are not negative. *)
Definition slice (a b : nat) (s : string) : string := String.substring a (b - a) s.
Definition slice_from (a : nat) (s : string) : string :=
  String.substring a (String.length s - a) s.

End PyStr.

(** ** services/wordpress.py: the REST requests *)

Module Wordpress.

(** A JSON document in a response of the WordPress REST API. Of an object the
    code reads 'id' (an integer) and 'link' (a string) only; [None] is an
    absent or null entry. *)
Inductive WpJson :=
| WpObject (id : option Z) (link : option string)
| WpArray (len : nat)
| WpScalar (v : PyVal).

Inductive HttpBody :=
| EmptyBody                          (* response.content is empty *)
| JsonBody (j : option WpJson)       (* JSON content type; None: it does not parse *)
| TextBody (text : string).          (* any other content type *)

(** What [requests.request] does. *)
Inductive HttpOutcome :=
| Responded (status_code : Z) (body : HttpBody)
| TimedOut
| RequestFailed.

Record WordPressService := mkWordPressService {
  api_url_base : option string }.

(** [_make_request]: [None], the decoded JSON document, the text of a
    non-JSON response (a str), or the empty dict for an empty response. *)
Definition _make_request (self : WordPressService) (http : HttpOutcome) : option WpJson :=
  if negb (truthy_str (api_url_base self)) then None
  else
    match http with
    | Responded status_code body =>
        if Worker.raise_for_status status_code then None
        else
          match body with
          | EmptyBody => Some (WpObject None None)
          | JsonBody j => j
          | TextBody text => Some (WpScalar (VStr text))
          end
    | TimedOut => None
    | RequestFailed => None
    end.

(** [upload_image]: the 'id' of the response when it is a dict that has
    one. *)
Definition upload_image (self : WordPressService) (http : HttpOutcome) : option Z :=
  match _make_request self http with
  | Some (WpObject id _) => id
  | _ => None
  end.

(** [create_post(post_data, rest_base)]. *)
Definition create_post (self : WordPressService) (rest_base : string) (http : HttpOutcome)
    : option WpJson :=
  if String.eqb rest_base "" then None else _make_request self http.

End Wordpress.

(** ** services/imagen.py *)

Module Imagen.
Import Worker.

Record ImagenClient := mkImagenClient {
  use_sdk : bool }.                  (* the SDK could be imported *)

Inductive Path := Sdk | Rest.

(** [generate_image_bytes]: the SDK when it is there, the REST endpoint when
    it is not or when the SDK call raised. [sdk] and [rest] are the outcomes
    of [_sdk_generate] and [_rest_generate]; an image is its bytes. The
    second component lists the paths taken. *)
Definition generate_image_bytes (self : ImagenClient)
    (sdk rest : Outcome (list (list Byte.byte))) : Outcome (list (list Byte.byte)) * list Path :=
  if use_sdk self then
    match sdk with
    | Returned images => (Returned images, [Sdk])
    | Raised _ => (rest, [Sdk; Rest])
    end
  else (rest, [Rest]).

End Imagen.

(** ** services/workflow.py: the image and publishing stages *)

Module Stages.
Import Workflow Worker PyStr Wordpress Imagen.

Record ContentWorkflowService := mkContentWorkflowService {
  imagen_client : option ImagenClient;
  wp_service : option WordPressService }.

(** The calls the two stages make to the image client and to the WordPress
    service. *)
Inductive Call :=
| CallImagen (path : Path) (prompt : string)
| CallUploadImage (title filename : string)
| CallUpdateTermMeta (term_id : Z) (meta_key meta_value : string)
| CallGetTermLink (term_id : Z) (taxonomy : string)
| CallCreatePost (title : string) (content : option string) (featured_media : option Z)
    (raw_category_content : string).

(** *** generate_and_upload_featured_image *)

Definition _build_image_prompt (keyword : PyVal) (snippet : string) : string :=
  let base :=
    "Create a photorealistic 16:9 image showcasing " +:+ py_str keyword +:+ " " +:+
    "in a modern man‑cave designed for sports enthusiasts aged 35 to 45, " +:+
    "with sleek lines, contemporary finishes, a pool table, and sports memorabilia " +:+
    "(framed jerseys, neon signs). Use warm dynamic lighting with subtle LED accents " +:+
    "and realistic textures. No text overlays or watermarks." in
  if String.eqb snippet "" then base else base +:+ " " +:+ py_strip snippet.

(** What the stage meets outside: the two image paths and the upload
    request. *)
Record ImageWorld := mkImageWorld {
  sdk_generate : Outcome (list (list Byte.byte));
  rest_generate : Outcome (list (list Byte.byte));
  upload_http : HttpOutcome }.

(** [generate_and_upload_featured_image(keyword, content_snippet)]: the
    attachment id or [None], and the calls made. Every exception of the
    [try] block ends in [None]: a failed image call, the [IndexError] of an
    empty image list, the [AttributeError] of [keyword.replace] on a keyword
    that is no str. *)
Definition generate_and_upload_featured_image (self : ContentWorkflowService)
    (w : ImageWorld) (keyword : PyVal) (content_snippet : string) : option Z * list Call :=
  match imagen_client self, wp_service self with
  | None, _ => (None, [])
  | Some _, None => (None, [])
  | Some client, Some wp =>
      let prompt_text := _build_image_prompt keyword content_snippet in
      let '(images, paths) := generate_image_bytes client (sdk_generate w) (rest_generate w) in
      let calls := (λ p, CallImagen p prompt_text) <$> paths in
      match images with
      | Raised _ => (None, calls)
      | Returned [] => (None, calls)
      | Returned ([] :: _) => (None, calls)
      | Returned ((_ :: _) :: _) =>
          match keyword with
          | VStr k =>
              (upload_image wp (upload_http w),
               calls ++ [CallUploadImage ("Featured image for " +:+ k)
                           (spaces_to_dashes k +:+ ".jpg")])
          | _ => (None, calls)
          end
      end
  end.

(** *** post_content_to_wordpress *)

(** One entry of [brief['update_targets']]: [.get('id')] and
    [.get('title')]. *)
Record Target := mkTarget {
  tg_id : PyVal;
  tg_title : option string }.

(** The brief: its scalar entries and, when the key is there, the list
    under 'update_targets'. *)
Record Brief := mkBrief {
  fields : Payload;
  update_targets : option (list Target) }.

(** [processed_content_result]: the pair [generate_content] returns, a str,
    or anything else. *)
Inductive Content :=
| ContentPair (processed_content generation_error : option string)
| ContentStr (processed_content : string)
| ContentOther.

Record CategoryUpdateResult := mkCategoryUpdateResult {
  cur_status : string;
  cur_id : option PyVal;
  cur_title : option string;
  cur_error : option string }.

Record BlogPostResult := mkBlogPostResult {
  bpr_status : string;
  bpr_id : option Z;
  bpr_url : option string;
  bpr_error : option string;
  bpr_response : option (option WpJson) }.

Record FinalResult := mkFinalResult {
  fr_category_update : CategoryUpdateResult;
  fr_blog_post : BlogPostResult }.

(** [int(category_id)]. *)
Inductive IntOutcome :=
| IntOk (z : Z)
| IntValueError
| IntTypeError (msg : string).

(** What the stage meets outside: the two [update_term_meta] calls,
    [get_term_link] and the request of [create_post]. *)
Record PostWorld := mkPostWorld {
  save_draft_meta : Outcome bool;
  get_term_link : Outcome (option string);
  create_post_http : HttpOutcome;
  save_final_meta : Outcome bool }.

Definition category_marker : string := "=== CATEGORY DESCRIPTION ===".
Definition blog_marker : string := "=== BLOG POST ===".
Definition draft_meta_key : string := "cave_supplies_longform_description_draft".

Definition category_error (msg : string) : CategoryUpdateResult :=
  mkCategoryUpdateResult "error" None None (Some msg).

Definition blog_error (msg : string) : BlogPostResult :=
  mkBlogPostResult "error" None None (Some msg) None.

(** The text between the markers and the text after the second one, when
    both markers are found in this order. *)
Definition split_dual (processed_content : string) : option (string * string) :=
  match find category_marker processed_content, find blog_marker processed_content with
  | Some cat_start, Some blog_start =>
      if (cat_start <? blog_start)%nat then
        Some (py_strip (slice (cat_start + String.length category_marker) blog_start
                          processed_content),
              py_strip (slice_from (blog_start + String.length blog_marker) processed_content))
      else None
  | _, _ => None
  end.

(** The link paragraph appended to the category text. *)
Definition blog_reference (keyword : PyVal) (href : string) : string :=
  "<p>Learn more about " +:+ py_str keyword +:+ " in our <a href=" +:+ dquote +:+ href +:+
  dquote +:+ " class=" +:+ dquote +:+ "category-blog-link" +:+ dquote +:+ " data-keyword=" +:+
  dquote +:+ py_str keyword +:+ dquote +:+ ">detailed guide</a>.</p>".

Definition newline : string := String (ascii_of_nat 10) "".

Section PostContent.
(** [int(s)] for a str; [None] is the [ValueError]. *)
Variable int_of_str : string → option Z.

Definition py_int (v : PyVal) : IntOutcome :=
  match v with
  | VInt z => IntOk z
  | VBool b => IntOk (if b then 1 else 0)%Z
  | VStr s => match int_of_str s with Some z => IntOk z | None => IntValueError end
  | VNone =>
      IntTypeError
        "int() argument must be a string, a bytes-like object or a real number, not 'NoneType'"
  end.

(** Saving the category text to the draft meta field (lines 1113-1152).
    [WordPressService] defines [update_term_meta], so the [hasattr] test
    holds and its [else] branch is not taken. *)
Definition save_category_draft (w : PostWorld) (brief : Brief) (keyword : PyVal)
    (category_content_to_save : string) : CategoryUpdateResult * list Call :=
  match default [] (update_targets brief) with
  | [] => (category_error "Missing update_targets", [])
  | target_category :: _ =>
      let category_id := tg_id target_category in
      let category_title := default "Unknown Category" (tg_title target_category) in
      if truthy category_id && negb (bool_decide (category_id = VStr "UNKNOWN")) then
        match py_int category_id with
        | IntValueError => (category_error "Invalid category ID", [])
        | IntTypeError e =>
            (mkCategoryUpdateResult "error" (Some category_id) (Some category_title)
               (Some ("Exception during meta save: " +:+ e)), [])
        | IntOk id =>
            let content_with_placeholder :=
              category_content_to_save +:+ newline +:+ newline +:+
              blog_reference keyword "BLOG_POST_PLACEHOLDER" in
            let call := CallUpdateTermMeta id draft_meta_key content_with_placeholder in
            match save_draft_meta w with
            | Returned true =>
                (mkCategoryUpdateResult "draft_saved" (Some (VInt id)) (Some category_title)
                   None, [call])
            | Returned false =>
                (mkCategoryUpdateResult "error" (Some (VInt id)) (Some category_title)
                   (Some "Failed to update term meta"), [call])
            | Raised e_cat_save =>
                (mkCategoryUpdateResult "error" (Some (VInt id)) (Some category_title)
                   (Some ("Exception during meta save: " +:+ e_cat_save)), [call])
            end
        end
      else (category_error "Missing category ID", [])
  end.

(** The id of a category whose draft was saved. *)
Definition saved_category (r : CategoryUpdateResult) : option Z :=
  if String.eqb (cur_status r) "draft_saved" then
    match cur_id r with Some (VInt id) => Some id | _ => None end
  else None.

Definition set_category_error (msg : string) (r : CategoryUpdateResult)
    : CategoryUpdateResult :=
  mkCategoryUpdateResult (cur_status r) (cur_id r) (cur_title r) (Some msg).

(** The second meta update, which puts the post's URL in place of the
    placeholder (lines 1193-1220). *)
Definition update_category_link (w : PostWorld) (keyword : PyVal)
    (category_update_result : CategoryUpdateResult) (category_content_to_save : string)
    (post_url : string) : CategoryUpdateResult * list Call :=
  match saved_category category_update_result with
  | None => (category_update_result, [])
  | Some category_id_to_update =>
      let final_category_content :=
        category_content_to_save +:+ newline +:+ newline +:+
        blog_reference keyword (html_escape post_url) in
      let call := CallUpdateTermMeta category_id_to_update draft_meta_key
                    final_category_content in
      let previous := default "" (cur_error category_update_result) in
      match save_final_meta w with
      | Returned true => (category_update_result, [call])
      | Returned false =>
          (set_category_error (previous +:+ "; Failed URL update") category_update_result,
           [call])
      | Raised e_update_link =>
          (set_category_error (previous +:+ "; Failed URL update (" +:+ e_update_link +:+ ")")
             category_update_result, [call])
      end
  end.

(** The [try] block that creates the post (lines 1157-1230). The handler
    returns the category result as it stood with the error of the
    exception: the [AttributeError] of [keyword.title()] on a keyword that
    is no str, an exception of [get_term_link], the [AttributeError] of
    [post_result.get] on a response that is no dict. *)
Definition create_blog_post (wp : WordPressService) (w : PostWorld) (keyword : PyVal)
    (category_update_result : CategoryUpdateResult) (category_content_to_save : string)
    (blog_content : option string) (featured_image_id : option Z)
    : FinalResult * list Call :=
  let failed msg calls := (mkFinalResult category_update_result (blog_error msg), calls) in
  match keyword with
  | VStr k =>
      let title := py_title k +:+ ": The Ultimate Guide" in
      let linked :=
        match saved_category category_update_result with
        | Some category_id_for_link =>
            let call := CallGetTermLink category_id_for_link "product_cat" in
            match get_term_link w with
            | Raised e => inr (e, [call])
            | Returned category_page_url =>
                if truthy_str category_page_url then
                  inl (Some ("<p>Explore our full collection of <a href=" +:+ dquote +:+
                             html_escape (default "" category_page_url) +:+ dquote +:+ ">" +:+
                             k +:+ "</a> at Cave Supplies.</p>" +:+ newline +:+ newline +:+
                             default "" blog_content), [call])
                else inl (blog_content, [call])
            end
        | None => inl (blog_content, [])
        end in
      match linked with
      | inr (e, calls) => failed e calls
      | inl (blog_content', calls) =>
          let featured_media :=
            match featured_image_id with
            | Some id => if (id =? 0)%Z then None else Some id
            | None => None
            end in
          let calls1 :=
            calls ++ [CallCreatePost title blog_content' featured_media
                        category_content_to_save] in
          let post_result := create_post wp "posts" (create_post_http w) in
          let not_created :=
            (mkFinalResult category_update_result
               (mkBlogPostResult "error" None None None (Some post_result)), calls1) in
          match post_result with
          | None => not_created
          | Some (WpObject None _) => not_created
          | Some (WpObject (Some post_id) link) =>
              if (post_id =? 0)%Z then not_created
              else
                let post_url := default "" link in
                let '(category_update_result', calls2) :=
                  update_category_link w keyword category_update_result
                    category_content_to_save post_url in
                (mkFinalResult category_update_result'
                   (mkBlogPostResult "success" (Some post_id) (Some post_url) None None),
                 calls1 ++ calls2)
          | Some (WpArray len) =>
              if (len =? 0)%nat then not_created
              else failed (attribute_error "list" "get") calls1
          | Some (WpScalar v) =>
              if truthy v then failed (attribute_error (type_name v) "get") calls1
              else not_created
          end
      end
  | _ => failed (attribute_error (type_name keyword) "title") []
  end.

(** [post_content_to_wordpress(brief, processed_content_result,
    featured_image_id)]: what it returns or raises, and the calls made. The
    one exception that leaves the function is the [AttributeError] of
    [processed_content.find] on a [None] content in the dual-content
    branch. *)
Definition post_content_to_wordpress (self : ContentWorkflowService) (w : PostWorld)
    (brief : Brief) (processed_content_result : Content) (featured_image_id : option Z)
    : Outcome (option FinalResult) * list Call :=
  match wp_service self with
  | None => (Returned None, [])
  | Some wp =>
      if bool_decide (fields brief = ∅) && negb (bool_decide (is_Some (update_targets brief)))
      then (Returned None, [])
      else
        let both_failed msg :=
          (Returned (Some (mkFinalResult (category_error msg) (blog_error msg))), []) in
        let continue (processed_content generation_error : option string) :=
          if truthy_str generation_error && negb (truthy_str processed_content) then
            both_failed "Content generation failed"
          else
            let keyword := default (VStr "Unknown Brief") (fields brief !! "keyword") in
            let recommendation :=
              default (VStr "create_new") (fields brief !! "content_recommendation") in
            let not_applicable := mkCategoryUpdateResult "not_applicable" None None None in
            if bool_decide (recommendation = VStr "dual_content") then
              match processed_content with
              | None => (Raised (attribute_error "NoneType" "find"), [])
              | Some text =>
                  match split_dual text with
                  | Some (category_content_to_save, blog_content) =>
                      let '(category_update_result, calls) :=
                        if String.eqb category_content_to_save "" then (not_applicable, [])
                        else save_category_draft w brief keyword category_content_to_save in
                      let '(final_result, calls') :=
                        create_blog_post wp w keyword category_update_result
                          category_content_to_save (Some blog_content) featured_image_id in
                      (Returned (Some final_result), calls ++ calls')
                  | None =>
                      let '(final_result, calls) :=
                        create_blog_post wp w keyword not_applicable "" processed_content
                          featured_image_id in
                      (Returned (Some final_result), calls)
                  end
              end
            else
              let '(final_result, calls) :=
                create_blog_post wp w keyword not_applicable "" processed_content
                  featured_image_id in
              (Returned (Some final_result), calls) in
        match processed_content_result with
        | ContentPair processed_content generation_error =>
            continue processed_content generation_error
        | ContentStr processed_content => continue (Some processed_content) None
        | ContentOther => both_failed "Invalid content format"
        end
  end.

End PostContent.

(** *** The worker's view of the two stages *)

(** The keys of the result that [process_single_task] reads. *)
Definition to_post_result (r : FinalResult) : PostResult :=
  {| blog_post :=
       Some {| bp_status := Some (bpr_status (fr_blog_post r));
               bp_id := bpr_id (fr_blog_post r);
               bp_url := bpr_url (fr_blog_post r);
               bp_error := bpr_error (fr_blog_post r) |};
     category_update :=
       Some {| cu_status := Some (cur_status (fr_category_update r));
               cu_error := cur_error (fr_category_update r) |} |}.

Definition to_outcome (o : Outcome (option FinalResult)) : Outcome (option PostResult) :=
  match o with
  | Returned r => Returned (to_post_result <$> r)
  | Raised msg => Raised msg
  end.

(** The second [mock_brief] of [process_single_task]. *)
Definition mock_brief (payload : Payload) : Brief :=
  {| fields := <["keyword" := item payload "keyword"]>
               (<["target_word_count" := item payload "target_word_count"]> ∅);
     update_targets := None |}.

(** The environment [env] with another answer of the publishing stage. *)
Definition with_post (o : Outcome (option PostResult)) (env : Env) : Env :=
  mkEnv (db_conn env) (db_now env) (init_services env) (generate_content env)
    (Worker.generate_and_upload_featured_image env) o (unbound_local_msg env)
    (wp_credentials env) (default_callback_url env) (requests_post env) (http_error_msg env).

(** The environment of an execution in which the image and publishing
    stages are the two functions above, called as the worker calls them
    once the text is there: the image stage on the keyword and the first 500
    characters, the publishing stage on the second [mock_brief], the text
    and the attachment id. *)
Definition wire (int_of_str : string → option Z) (self : ContentWorkflowService)
    (iw : ImageWorld) (pw : PostWorld) (payload : Payload) (env : Env) : Env :=
  match generate_content env with
  | Returned (Some content, _) =>
      let featured_image_id :=
        (generate_and_upload_featured_image self iw (item payload "keyword")
           (String.substring 0 500 content)).1 in
      let post :=
        (post_content_to_wordpress int_of_str self pw (mock_brief payload)
           (ContentStr content) featured_image_id).1 in
      Notions.with_image (Returned featured_image_id) (with_post (to_outcome post) env)
  | _ => env
  end.

(** *** Notions used to state the properties *)

(** The request got no answer, or one with a status code from 400 to 599:
    [_make_request] gives [None]. *)
Definition request_failed (http : HttpOutcome) : Prop :=
  match http with
  | Responded status_code _ => raise_for_status status_code = true
  | TimedOut => True
  | RequestFailed => True
  end.

(** The request was answered, outside the error codes, with a JSON object
    that carries the id [id]. *)
Definition answered_with_id (http : HttpOutcome) (id : Z) : Prop :=
  ∃ status_code link,
    http = Responded status_code (JsonBody (Some (WpObject (Some id) link)))
    ∧ raise_for_status status_code = false.

(** The brief [brief] without a content recommendation: the single post
    flow. *)
Definition single_post_brief (brief : Brief) : Brief :=
  {| fields := delete "content_recommendation" (fields brief);
     update_targets := update_targets brief |}.

Definition is_dual (brief : Brief) : Prop :=
  fields brief !! "content_recommendation" = Some (VStr "dual_content").

Definition keyword_of (brief : Brief) : PyVal :=
  default (VStr "Unknown Brief") (fields brief !! "keyword").

(** The category part of the result when no category text was saved. *)
Definition not_applicable : CategoryUpdateResult :=
  mkCategoryUpdateResult "not_applicable" None None None.

End Stages.

(** ** Sample data of the webhook and of the two stages *)

Module StageSamples.
Import Database Worker App PyStr Wordpress Imagen Stages.

Definition secret : option string := Some "s3cret".

Definition body : Payload := <["source" := VStr "plugin"]> (Samples.full_payload
  Samples.callback_endpoint).

Definition good_request : Request :=
  {| x_plugin_token := Some "s3cret"; is_json := true; get_json := Some (JObject body) |}.

Definition forged_request : Request :=
  {| x_plugin_token := Some "guess"; is_json := true; get_json := Some (JObject body) |}.

Definition dumps (p : Payload) : string := "{...}".
Definition loads (s : string) : option Payload := Some (task_payload body).

Definition service : WordPressService := {| api_url_base := Some "https://example.com/wp-json" |}.

Definition workflow_service : ContentWorkflowService :=
  {| imagen_client := Some {| use_sdk := true |}; wp_service := Some service |}.

Definition created (id : Z) (link : string) : HttpOutcome :=
  Responded 201 (JsonBody (Some (WpObject (Some id) (Some link)))).

(** The SDK fails, the REST endpoint gives one image, the upload is
    answered with attachment 5. *)
Definition image_world : ImageWorld :=
  {| sdk_generate := Raised "quota";
     rest_generate := Returned [[Byte.x89; Byte.x50]];
     upload_http := created 5 "https://example.com/?attachment_id=5" |}.

Definition post_world (http : HttpOutcome) (final : Outcome bool) : PostWorld :=
  {| save_draft_meta := Returned true;
     get_term_link := Returned (Some "https://example.com/product-category/pool-tables/");
     create_post_http := http;
     save_final_meta := final |}.

Definition int_of_str (s : string) : option Z :=
  if String.eqb s "12" then Some 12%Z else None.

Definition dual_brief : Brief :=
  {| fields := <["keyword" := VStr "pool tables"]>
               (<["content_recommendation" := VStr "dual_content"]> ∅);
     update_targets := Some [{| tg_id := VStr "12"; tg_title := Some "Pool Tables" |}] |}.


Definition plain_text : string := "<h2>Choosing a pool table</h2><p>...</p>".

End StageSamples.

(** * Properties of the task store *)

Module DatabaseFacts.
Import Database.

#[local] Instance older_transitive : Transitive older.
Proof. intros a b c. unfold older. lia. Qed.

#[local] Instance older_total : Total older.
Proof. intros a b. unfold older. lia. Qed.

Lemma elem_of_candidates max_retries (tbl : Table) id r :
  (id, r) ∈ candidates max_retries tbl ↔ tbl !! id = Some r ∧ eligible max_retries r.
Proof.
  unfold candidates. rewrite merge_sort_Permutation, list_elem_of_filter.
  rewrite elem_of_map_to_list. simpl. tauto.
Qed.

Lemma candidates_sorted max_retries (tbl : Table) :
  StronglySorted older (candidates max_retries tbl).
Proof. apply StronglySorted_merge_sort; apply _. Qed.




(** The oldest row that satisfies the WHERE clause heads the result. *)
Lemma candidates_head max_retries (tbl : Table) id r :
  tbl !! id = Some r → eligible max_retries r →
  (∀ id' r0, id' ≠ id → tbl !! id' = Some r0 → eligible max_retries r0 →
     (created_at r < created_at r0)%Z) →
  head (candidates max_retries tbl) = Some (id, r).
Proof.
  intros Hr Hel Hold.
  assert (Hin : (id, r) ∈ candidates max_retries tbl) by by apply elem_of_candidates.
  pose proof (candidates_sorted max_retries tbl) as Hs.
  destruct (candidates max_retries tbl) as [|[k h] l] eqn:E; [by apply elem_of_nil in Hin|].
  assert (Hh : tbl !! k = Some h ∧ eligible max_retries h).
  { apply elem_of_candidates. rewrite E. apply elem_of_cons. by left. }
  destruct Hh as [Hk Hhel]. simpl. f_equal.
  destruct (decide (k = id)) as [-> | Hne]; [congruence|].
  exfalso. apply elem_of_cons in Hin as [Heq | Hin]; [congruence|].
  apply StronglySorted_inv in Hs as [_ Hall]. rewrite Forall_forall in Hall.
  specialize (Hall _ Hin). unfold older in Hall. simpl in Hall.
  specialize (Hold k h Hne Hk Hhel). lia.
Qed.

Lemma get_pending_tasks_one json_loads cfg (tbl : Table) id r :
  tbl !! id = Some r → eligible (default 3%Z (max_task_retries cfg)) r →
  (∀ id' r0, id' ≠ id → tbl !! id' = Some r0 →
     eligible (default 3%Z (max_task_retries cfg)) r0 →
     (created_at r < created_at r0)%Z) →
  get_pending_tasks json_loads cfg true 1 tbl = [row_to_task json_loads (id, r)].
Proof.
  intros Hr Hel Hold. unfold get_pending_tasks, select_rows. simpl.
  pose proof (candidates_head _ tbl id r Hr Hel Hold) as Hhead.
  by destruct (candidates _ tbl) as [|kr l]; simplify_eq/=.
Qed.

Lemma candidates_length max_retries (tbl : Table) :
  length (candidates max_retries tbl) ≤ size tbl.
Proof.
  unfold candidates. rewrite merge_sort_Permutation, <- length_map_to_list.
  apply length_filter.
Qed.

(** A row that satisfies the WHERE clause is among the tasks returned
    whenever the limit does not cut the result. *)
Lemma get_pending_tasks_elem json_loads cfg limit (tbl : Table) id r :
  tbl !! id = Some r → eligible (default 3%Z (max_task_retries cfg)) r →
  (Z.of_nat (size tbl) ≤ limit)%Z →
  row_to_task json_loads (id, r) ∈ get_pending_tasks json_loads cfg true limit tbl.
Proof.
  intros Hr Hel Hlimit. unfold get_pending_tasks, select_rows.
  destruct (limit <? 0)%Z eqn:E; [apply Z.ltb_lt in E; lia|].
  apply list_elem_of_fmap_2. rewrite take_ge.
  - by apply elem_of_candidates.
  - pose proof (candidates_length (default 3%Z (max_task_retries cfg)) tbl). lia.
Qed.


(** Scenario A: one enqueued task is what a claim of one task returns, with
    no attempts made. *)
Example get_pending_tasks_after_add_task :
  let '(tbl, id) := add_task true 100 "task-1" "generate_content" "{...}" ∅ in
  id = Some "task-1"
  ∧ get_pending_tasks (λ _, None) WORKER_CONFIG true 1 tbl
    = [{| t_task_id := "task-1"; t_task_type := "generate_content";
          t_payload := Some ∅; t_attempts := 0 |}].
Proof. vm_compute. done. Qed.

(** Without a connection nothing is returned. *)
Lemma get_pending_tasks_no_connection json_loads cfg limit (tbl : Table) :
  get_pending_tasks json_loads cfg false limit tbl = [].
Proof. done. Qed.

(** *** The status writer *)

Lemma update_task_status_lookup conn now id st att err (tbl : Table) r :
  tbl !! id = Some r →
  (update_task_status conn now id st att err tbl).1 !! id
  = Some (if conn then set_row now st att err r else r).
Proof.
  intros Hr. unfold update_task_status. destruct conn; simpl; [|done].
  rewrite Hr. simpl. apply lookup_insert_eq.
Qed.

Lemma update_task_status_lookup_ne conn now id id' st att err (tbl : Table) :
  id ≠ id' →
  (update_task_status conn now id st att err tbl).1 !! id' = tbl !! id'.
Proof.
  intros Hne. unfold update_task_status. destruct conn; simpl; [|done].
  destruct (tbl !! id); simpl; [|done]. by apply lookup_insert_ne.
Qed.

Lemma update_task_status_true conn now id st att err (tbl : Table) :
  (update_task_status conn now id st att err tbl).2 = true ↔
  conn = true ∧ ∃ r, tbl !! id = Some r ∧ set_row now st att err r ≠ r.
Proof.
  unfold update_task_status. destruct conn; simpl; [|naive_solver].
  destruct (tbl !! id) as [r|]; simpl; [|naive_solver].
  rewrite bool_decide_eq_true. naive_solver.
Qed.

(** Writing the same terminal status twice in a row leaves the row the first
    write produced. *)
Lemma update_task_status_idempotent now id st err (tbl : Table) :
  (update_task_status true now id st None err
     (update_task_status true now id st None err tbl).1).1
  = (update_task_status true now id st None err tbl).1.
Proof.
  unfold update_task_status. destruct (tbl !! id) as [r|] eqn:Hr; simpl; [|by rewrite Hr].
  rewrite lookup_insert_eq. simpl. by rewrite insert_insert_eq.
Qed.

(** The claim has no guard on the current status: a task that is already
    'processing' is claimed again whenever the write changes the row, which
    it does as soon as the clock has moved. *)
Lemma mark_task_processing_no_guard now id a (tbl : Table) r :
  tbl !! id = Some r → status r = processing → now ≠ updated_at r →
  (mark_task_processing true now id a tbl).2 = true.
Proof.
  intros Hr _ Hnow. apply update_task_status_true. split; [done|].
  exists r. split; [done|]. intros Heq. apply Hnow.
  by apply (f_equal updated_at) in Heq.
Qed.

(** C1. Two claims of the same task, both made with the attempt count read
    before either claim: the first moves the task to 'processing' and
    succeeds, and the second, made a moment later on the task that is already
    'processing', succeeds as well. *)
Lemma mark_task_processing_second_claim_succeeds :
  let first := mark_task_processing true 101 "task-1" 0 Samples.one_task in
  let second := mark_task_processing true 102 "task-1" 0 first.1 in
  first.2 = true
  ∧ status <$> first.1 !! "task-1" = Some processing
  ∧ second.2 = true.
Proof. vm_compute. done. Qed.

End DatabaseFacts.

(** * Properties of the worker *)

Module WorkerFacts.
Import Database Worker DatabaseFacts.

Lemma missing_keys_nil (payload : Payload) k :
  missing_keys payload = [] → k ∈ required_payload_keys → is_Some (payload !! k).
Proof.
  intros Hnil Hk. destruct (payload !! k) eqn:E; [by eexists|].
  assert (Hin : k ∈ missing_keys payload) by (by apply list_elem_of_filter).
  rewrite Hnil in Hin. by apply elem_of_nil in Hin.
Qed.

Lemma missing_keys_nil_nonempty (payload : Payload) :
  missing_keys payload = [] → payload ≠ ∅.
Proof.
  intros Hnil ->.
  destruct (missing_keys_nil ∅ "brief_id" Hnil) as [v Hv]; [set_solver|].
  by rewrite lookup_empty in Hv.
Qed.

Lemma callback_url_item (payload : Payload) d :
  missing_keys payload = [] →
  default d (payload !! "callback_url") = item payload "callback_url".
Proof.
  intros Hnil. destruct (missing_keys_nil payload "callback_url" Hnil) as [v Hv].
  - unfold required_payload_keys. set_solver.
  - unfold item. by rewrite Hv.
Qed.

(** An execution that claimed its task: the row existed, the claim moved it
    to 'processing' with the attempt count raised by one, and the rest of the
    execution runs on that store. *)
Lemma process_single_task_after_claim env task payload (tbl : Table) :
  claimed env task payload tbl →
  ∃ r tbl1,
    tbl !! t_task_id task = Some r
    ∧ tbl1 !! t_task_id task
      = Some (set_row (db_now env 0) processing (Some (t_attempts task + 1)%Z) None r)
    ∧ process_single_task env task tbl
      = ((after_claim env task payload tbl1).1,
         EvMarkTaskProcessing (t_task_id task) (t_attempts task)
         :: (after_claim env task payload tbl1).2).
Proof.
  intros (Hp & Hnil & Hmark).
  pose proof Hmark as Hm. apply update_task_status_true in Hm as (Hconn & r & Hr & _).
  exists r, (mark_task_processing (db_conn env 0) (db_now env 0) (t_task_id task)
               (t_attempts task) tbl).1.
  split; [done|]. split.
  - unfold mark_task_processing. rewrite (update_task_status_lookup _ _ _ _ _ _ _ r Hr).
    by rewrite Hconn.
  - unfold process_single_task. rewrite Hp.
    rewrite (bool_decide_eq_false_2 _ (missing_keys_nil_nonempty _ Hnil)).
    rewrite (bool_decide_eq_true_2 _ Hnil). simpl negb. cbv iota.
    destruct (mark_task_processing _ _ _ _ tbl) as [tbl1 marked] eqn:Em.
    simpl in Hmark. subst marked. simpl. by destruct (after_claim env task payload tbl1).
Qed.

Lemma write_status_lookup env n id st err (tbl : Table) r :
  tbl !! id = Some r →
  (write_status env n id st err tbl).1 !! id
  = Some (if db_conn env n then set_row (db_now env n) st None err r else r).
Proof. intros Hr. unfold write_status. simpl. by apply update_task_status_lookup. Qed.

(** What an execution that claimed its task and started its services does:
    the claim, the calls of the pipeline and of the callback, and one last
    status write, which takes effect when the store call gets through. *)
Lemma process_single_task_claimed env task payload (tbl : Table) :
  claimed env task payload tbl → init_services env = InitOk →
  ∃ r, tbl !! t_task_id task = Some r
    ∧ (process_single_task env task tbl).2
      = EvMarkTaskProcessing (t_task_id task) (t_attempts task)
        :: fin_events (finish env task payload)
        ++ [EvUpdateTaskStatus (t_task_id task) (fin_status (finish env task payload)) None
              (fin_error (finish env task payload))]
    ∧ (process_single_task env task tbl).1 !! t_task_id task
      = Some (let r1 := set_row (db_now env 0) processing (Some (t_attempts task + 1)%Z) None r in
              if db_conn env 1
              then set_row (db_now env 1) (fin_status (finish env task payload)) None
                     (fin_error (finish env task payload)) r1
              else r1).
Proof.
  intros Hcl Hinit.
  destruct (process_single_task_after_claim _ _ _ _ Hcl) as (r & tbl1 & Hr & Hr1 & ->).
  exists r. split; [done|]. unfold after_claim. rewrite Hinit. simpl.
  split; [done|]. by rewrite (update_task_status_lookup _ _ _ _ _ _ _ _ Hr1).
Qed.

(** *** The try block *)

Lemma truthy_str_Some (c : string) : truthy_str (Some c) = true ↔ c ≠ "".
Proof.
  simpl. rewrite negb_true_iff. split.
  - intros H ->. by rewrite String.eqb_refl in H.
  - intros H. by apply String.eqb_neq.
Qed.

Lemma run_task_calls_no_callback env task payload cp :
  Forall (λ ev, ¬ is_callback_post ev) (tr_events (run_task env task payload cp)).
Proof.
  unfold run_task, run_generate.
  repeat (case_match; simpl; try done);
    repeat constructor; intros (? & ? & ?); done.
Qed.

(** The try block ends with 'completed' exactly when every stage succeeded,
    and with 'error' otherwise. *)
Lemma run_task_completed env task payload cp :
  tr_status (run_task env task payload cp) = completed ↔ pipeline_succeeded env task.
Proof.
  unfold pipeline_succeeded, run_task, run_generate, after_post, opt_is.
  destruct (String.eqb (t_task_type task) "generate_content") eqn:Ety.
  2: { apply String.eqb_neq in Ety. simpl. naive_solver. }
  apply String.eqb_eq in Ety.
  destruct (generate_content env) as [[c ge]|m] eqn:Eg; simpl.
  2: { naive_solver. }
  destruct (truthy_str c) eqn:Ec; simpl.
  2: { split; [done|]. intros (_ & c' & ge' & ? & ? & ? & Hg & Hc & _).
       simplify_eq. apply truthy_str_Some in Hc. congruence. }
  destruct c as [c|]; [|done]. apply truthy_str_Some in Ec.
  destruct (generate_and_upload_featured_image env) as [img|m] eqn:Ei; simpl.
  2: { naive_solver. }
  destruct (post_content_to_wordpress env) as [[post|]|m] eqn:Ep; simpl.
  2,3: naive_solver.
  destruct (blog_post post) as [bp|] eqn:Eb; simpl.
  2: { repeat case_bool_decide; simpl; try done. naive_solver. }
  destruct (bp_status bp) as [bs|] eqn:Es; simpl.
  2: { repeat case_bool_decide; simpl; try done. naive_solver. }
  case_bool_decide as Hs; simpl.
  - simplify_eq. split.
    + intros _. split; [done|]. by exists c, ge, img, post, bp.
    + intros _. by case_bool_decide.
  - case_bool_decide; simpl; naive_solver.
Qed.

Lemma run_task_status env task payload cp :
  tr_status (run_task env task payload cp) = completed
  ∨ tr_status (run_task env task payload cp) = error.
Proof.
  unfold run_task, run_generate, after_post.
  repeat (case_match; simpl; simplify_eq; auto).
Qed.

(** When every stage succeeded the callback status is 'success', and the
    error message is cleared unless the category part of the post failed. *)
Lemma run_task_succeeded env task payload cp :
  pipeline_succeeded env task →
  cp_status (tr_payload (run_task env task payload cp)) = "success"
  ∧ (¬ category_update_failed env →
       cp_error_message (tr_payload (run_task env task payload cp)) = None)
  ∧ (category_update_failed env →
       ∃ m, cp_error_message (tr_payload (run_task env task payload cp))
            = Some ("Blog post created, but category update failed: " +:+ m)).
Proof.
  intros (Hty & c & ge & img & post & bp & Hg & Hc & Hi & Hp & Hb & Hs).
  unfold category_update_failed, run_task, run_generate, after_post, opt_is.
  rewrite Hty, Hg. simpl String.eqb. cbv iota.
  rewrite (proj2 (truthy_str_Some c) Hc), Hi, Hp. simpl. rewrite Hb. simpl. rewrite Hs.
  rewrite bool_decide_eq_true_2 by done.
  case_bool_decide as Hcu; simpl.
  - split; [done|]. split; [|by eexists]. intros Hn. destruct Hn.
    destruct (category_update post) as [cu|] eqn:Ecu; [|done].
    exists post, cu. by simplify_eq/=.
  - split; [done|]. split; [done|]. intros (post' & cu & Hp' & Hcu' & Hst).
    simplify_eq. rewrite Hcu' in Hcu. simpl in Hcu. congruence.
Qed.

(** A try block that ends with 'error' leaves an error message. *)
Lemma run_task_error_message env task payload :
  tr_status (run_task env task payload (initial_callback_payload (t_task_id task) payload))
  = error →
  is_Some (cp_error_message
             (tr_payload (run_task env task payload
                            (initial_callback_payload (t_task_id task) payload)))).
Proof.
  unfold run_task, run_generate, after_post.
  repeat (case_match; simpl in *; simplify_eq; try done; try by eexists).
Qed.

(** No text: the read of the unassigned [post_result] raises, and the
    handler's message replaces whatever the generation stage reported. *)
Lemma run_task_no_content env task payload cp c ge :
  t_task_type task = "generate_content" →
  generate_content env = Returned (c, ge) → truthy_str c = false →
  run_task env task payload cp
  = mkTryResult
      (set_status "error"
         (set_error_message
            (Some ("Unexpected error processing task " +:+ t_task_id task +:+ ": " +:+
                   unbound_local_msg env)) cp))
      error None
      [EvGenerateContent (item payload "keyword") (item payload "prompt")
         (item payload "target_word_count")].
Proof.
  intros Hty Hg Hc. unfold run_task, run_generate. rewrite Hty, Hg, Hc. done.
Qed.

(** *** The callback *)



Lemma finish_callback_ok env task payload code :
  missing_keys payload = [] → truthy (item payload "callback_url") = true →
  wp_credentials env = true →
  requests_post env = Response code → raise_for_status code = false →
  fin_status (finish env task payload)
  = tr_status (run_task env task payload (initial_callback_payload (t_task_id task) payload))
  ∧ fin_error (finish env task payload)
    = cp_error_message
        (tr_payload (run_task env task payload
                       (initial_callback_payload (t_task_id task) payload))).
Proof.
  intros Hnil Hurl Hcred Hreq Hok. unfold finish, send_callback.
  rewrite (callback_url_item _ _ Hnil), Hurl, Hcred, Hreq, Hok. done.
Qed.

(** Whatever happens, the status handed to the final write is 'completed' or
    'error'. *)
Lemma finish_status env task payload :
  fin_status (finish env task payload) = completed
  ∨ fin_status (finish env task payload) = error.
Proof.
  unfold finish, send_callback.
  pose proof (run_task_status env task payload
                (initial_callback_payload (t_task_id task) payload)) as Hr.
  repeat (case_match; simpl; simplify_eq; auto).
Qed.

(** *** Sample executions *)

Lemma sample_claimed fw gen post req url :
  url = Samples.callback_endpoint ∨ url = VNone →
  claimed (Samples.env_with fw gen post req) (Samples.task_with (Some (Samples.full_payload url)))
    (Samples.full_payload url) Samples.one_task.
Proof. intros [-> | ->]; repeat split; vm_compute; reflexivity. Qed.


(** *** Missing callback URL *)




(** *** Failed callback *)




(** *** The final status write *)

(** C8, as stated, fails when the final write does not reach the store: the
    task is left in 'processing'. *)
Lemma final_write_lost_leaves_processing :
  let env := Samples.env_with false Samples.generated (Returned Samples.published)
               (Response 200) in
  let payload := Samples.full_payload Samples.callback_endpoint in
  let task := Samples.task_with (Some payload) in
  let res := process_single_task env task Samples.one_task in
  claimed env task payload Samples.one_task
  ∧ last res.2 = Some (EvUpdateTaskStatus "task-1" completed None None)
  ∧ status <$> res.1 !! "task-1" = Some processing.
Proof. split; [apply sample_claimed; by left|]. vm_compute. done. Qed.

(** C8, amended. Every execution that claimed its task ends with a call of
    [update_task_status] that carries 'completed' or 'error', whatever the
    services, the stages and the callback did; when that call reaches the
    store the task's status is the one written and is no longer
    'processing', and when it does not the task stays 'processing'. *)
Theorem final_status_write_always_issued env task payload (tbl : Table) :
  claimed env task payload tbl →
  ∃ st msg,
    last (process_single_task env task tbl).2
    = Some (EvUpdateTaskStatus (t_task_id task) st None msg)
    ∧ (st = completed ∨ st = error)
    ∧ ∃ row, (process_single_task env task tbl).1 !! t_task_id task = Some row
             ∧ status row = (if db_conn env 1 then st else processing).
Proof.
  intros Hcl.
  destruct (process_single_task_after_claim _ _ _ _ Hcl) as (r & tbl1 & Hr & Hr1 & ->).
  unfold after_claim.
  destruct (init_services env) as [|ve|init_err]; simpl.
  - exists (fin_status (finish env task payload)), (fin_error (finish env task payload)).
    split; [rewrite app_comm_cons; apply last_snoc|]. split; [apply finish_status|].
    rewrite (update_task_status_lookup _ _ _ _ _ _ _ _ Hr1).
    eexists. split; [done|]. by destruct (db_conn env 1).
  - exists error, (Some ve). split; [done|]. split; [by right|].
    rewrite (update_task_status_lookup _ _ _ _ _ _ _ _ Hr1).
    eexists. split; [done|]. by destruct (db_conn env 1).
  - eexists error, _. split; [done|]. split; [by right|].
    rewrite (update_task_status_lookup _ _ _ _ _ _ _ _ Hr1).
    eexists. split; [done|]. by destruct (db_conn env 1).
Qed.

Lemma final_status_write_always_issued_witness :
  ∃ st msg,
    last (process_single_task Samples.happy_env
            (Samples.task_with (Some (Samples.full_payload Samples.callback_endpoint)))
            Samples.one_task).2
    = Some (EvUpdateTaskStatus "task-1" st None msg)
    ∧ (st = completed ∨ st = error)
    ∧ ∃ row, (process_single_task Samples.happy_env
                (Samples.task_with (Some (Samples.full_payload Samples.callback_endpoint)))
                Samples.one_task).1 !! "task-1" = Some row
             ∧ status row = (if db_conn Samples.happy_env 1 then st else processing).
Proof.
  apply (final_status_write_always_issued Samples.happy_env
           (Samples.task_with (Some (Samples.full_payload Samples.callback_endpoint)))
           (Samples.full_payload Samples.callback_endpoint) Samples.one_task).
  apply sample_claimed. by left.
Defined.

(** *** The stored error message *)






(** *** No text from the generation stage *)

(** For a 'generate_content' task whose generation stage returns no text,
    neither the image nor the publishing call is made and the try block ends
    with 'error'; the message it leaves is the handler's, built from the
    unbound-local error, for every error the generation stage reported. *)
Lemma finish_no_content env task payload c ge :
  missing_keys payload = [] → t_task_type task = "generate_content" →
  generate_content env = Returned (c, ge) → truthy_str c = false →
  truthy (item payload "callback_url") = true → wp_credentials env = true →
  (∃ code, requests_post env = Response code ∧ raise_for_status code = false) →
  fin_status (finish env task payload) = error
  ∧ fin_error (finish env task payload)
    = Some ("Unexpected error processing task " +:+ t_task_id task +:+ ": " +:+
            unbound_local_msg env)
  ∧ Forall (λ ev, ∀ k s i, ev ≠ EvGenerateImage k s ∧ ev ≠ EvPostToWordpress s i)
      (fin_events (finish env task payload)).
Proof.
  intros Hnil Hty Hg Hc Hurl Hcred (code & Hreq & Hok).
  destruct (finish_callback_ok env task payload code Hnil Hurl Hcred Hreq Hok) as [-> ->].
  rewrite (run_task_no_content env task payload _ c ge Hty Hg Hc). simpl.
  split; [done|]. split; [done|].
  unfold finish, send_callback.
  rewrite (callback_url_item _ _ Hnil), Hurl, Hcred, Hreq, Hok.
  rewrite (run_task_no_content env task payload _ c ge Hty Hg Hc). simpl.
  repeat constructor; done.
Qed.


(** *** Validation *)

Lemma app_String a (s t : string) : String a s +:+ t = String a (s +:+ t).
Proof. reflexivity. Qed.

Lemma app_empty (t : string) : "" +:+ t = t.
Proof. reflexivity. Qed.

Lemma string_app_assoc (s t u : string) : (s +:+ t) +:+ u = s +:+ t +:+ u.
Proof. induction s as [|c s IH]; [done|]. rewrite !app_String. by f_equal. Qed.

Lemma string_app_empty_r (s : string) : s +:+ "" = s.
Proof. induction s as [|c s IH]; [done|]. rewrite app_String. by f_equal. Qed.

Lemma prefix_app (k s : string) : String.prefix k (k +:+ s) = true.
Proof.
  induction k as [|a k IH].
  - by destruct s.
  - rewrite app_String. simpl. by destruct (ascii_dec a a).
Qed.

Lemma py_in_app (a k b : string) : py_in k (a +:+ k +:+ b) = true.
Proof.
  induction a as [|c a IH].
  - rewrite app_empty. pose proof (prefix_app k b) as Hp.
    destruct (k +:+ b); cbn [py_in]; by rewrite Hp.
  - rewrite app_String. simpl. rewrite IH. apply orb_true_r.
Qed.

Lemma concat_elem (sep k : string) (l : list string) :
  k ∈ l → ∃ a b, String.concat sep l = a +:+ k +:+ b.
Proof.
  induction l as [|x l IH]; [by intros ?%elem_of_nil|].
  intros [Heq | Hin]%elem_of_cons.
  - subst x. exists "". destruct l as [|y l].
    + exists "". by rewrite app_empty, string_app_empty_r.
    + by exists (sep +:+ String.concat sep (y :: l)).
  - destruct (IH Hin) as (a & b & Hab). destruct l as [|y l]; [by apply elem_of_nil in Hin|].
    exists (x +:+ sep +:+ a), b.
    change (String.concat sep (x :: y :: l))
      with (x +:+ sep +:+ String.concat sep (y :: l)).
    by rewrite Hab, !string_app_assoc.
Qed.

(** A task that does not pass validation costs one status write and nothing
    else. *)
Lemma process_single_task_invalid env task (tbl : Table) :
  fails_validation (t_payload task) →
  ∃ msg,
    process_single_task env task tbl = write_status env 0 (t_task_id task) error (Some msg) tbl
    ∧ match t_payload task with
      | Some payload =>
          if decide (payload = ∅) then msg = "Invalid or empty payload received."
          else msg = "Task " +:+ t_task_id task +:+ " payload missing required keys: " +:+
                     String.concat ", " (missing_keys payload)
      | None => msg = "Invalid or empty payload received."
      end.
Proof.
  unfold fails_validation, process_single_task.
  destruct (t_payload task) as [payload|]; [|by eexists].
  intros Hmiss. case_bool_decide as He.
  - eexists. split; [done|]. by rewrite decide_True.
  - rewrite (bool_decide_eq_false_2 _ Hmiss). simpl. eexists. split; [done|].
    by rewrite decide_False.
Qed.

(** C7, as stated, fails for the empty payload: all five keys are missing,
    the task ends 'error', and the stored message names none of them. *)
Lemma empty_payload_message_names_no_key :
  let task := Samples.task_with (Some ∅) in
  let res := process_single_task Samples.happy_env task Samples.one_task in
  missing_keys ∅ = required_payload_keys
  ∧ status <$> res.1 !! "task-1" = Some error
  ∧ last_error <$> res.1 !! "task-1" = Some (Some "Invalid or empty payload received.")
  ∧ Forall (λ key, py_in key "Invalid or empty payload received." = false)
      required_payload_keys.
Proof. vm_compute. repeat split; repeat constructor. Qed.

(** C7, amended. For a task whose payload lacks a required key, the execution
    makes exactly one call, a status write of 'error' that leaves the attempt
    count alone: the task is not marked 'processing' and no generation,
    image, publishing or callback call is made. When the write reaches the
    store the row is 'error' with the message written. The message names
    every missing key when the payload is a non-empty dict, and is "Invalid
    or empty payload received." when the payload is empty. *)
Theorem validation_failure_stops_processing env task payload (tbl : Table) :
  t_payload task = Some payload → missing_keys payload ≠ [] →
  ∃ msg,
    (process_single_task env task tbl).2
    = [EvUpdateTaskStatus (t_task_id task) error None (Some msg)]
    ∧ (∀ r, tbl !! t_task_id task = Some r → db_conn env 0 = true →
         ∃ r', (process_single_task env task tbl).1 !! t_task_id task = Some r'
               ∧ status r' = error ∧ last_error r' = Some msg
               ∧ attempts r' = attempts r)
    ∧ (payload ≠ ∅ → Forall (λ key, py_in key msg = true) (missing_keys payload))
    ∧ (payload = ∅ → msg = "Invalid or empty payload received.").
Proof.
  intros Hp Hmiss.
  destruct (process_single_task_invalid env task tbl) as (msg & -> & Hmsg).
  { unfold fails_validation. by rewrite Hp. }
  rewrite Hp in Hmsg. exists msg. split; [done|]. split; [|split].
  - intros r Hr Hconn. rewrite (write_status_lookup _ _ _ _ _ _ _ Hr), Hconn.
    by eexists.
  - intros Hne. rewrite decide_False in Hmsg by done. subst msg.
    apply Forall_forall. intros key Hkey.
    destruct (concat_elem ", " key _ Hkey) as (a & b & ->).
    pose proof (py_in_app ("Task " +:+ t_task_id task +:+
                           " payload missing required keys: " +:+ a) key b) as Hin.
    by rewrite !string_app_assoc in Hin.
  - intros ->. by rewrite decide_True in Hmsg.
Qed.

Lemma validation_failure_stops_processing_witness :
  ∃ msg,
    (process_single_task Samples.happy_env
       (Samples.task_with (Some Samples.payload_without_keyword)) Samples.one_task).2
    = [EvUpdateTaskStatus "task-1" error None (Some msg)]
    ∧ (∀ r, Samples.one_task !! "task-1" = Some r → db_conn Samples.happy_env 0 = true →
         ∃ r', (process_single_task Samples.happy_env
                  (Samples.task_with (Some Samples.payload_without_keyword))
                  Samples.one_task).1 !! "task-1" = Some r'
               ∧ status r' = error ∧ last_error r' = Some msg
               ∧ attempts r' = attempts r)
    ∧ (Samples.payload_without_keyword ≠ ∅ →
       Forall (λ key, py_in key msg = true) (missing_keys Samples.payload_without_keyword))
    ∧ (Samples.payload_without_keyword = ∅ → msg = "Invalid or empty payload received.").
Proof.
  apply (validation_failure_stops_processing Samples.happy_env
           (Samples.task_with (Some Samples.payload_without_keyword))
           Samples.payload_without_keyword Samples.one_task).
  - reflexivity.
  - intros H. vm_compute in H. discriminate H.
Defined.

(** Scenario B: the payload lacks 'keyword'. *)
Example process_single_task_without_keyword :
  process_single_task Samples.happy_env
    (Samples.task_with (Some Samples.payload_without_keyword)) Samples.one_task
  = write_status Samples.happy_env 0 "task-1" error
      (Some "Task task-1 payload missing required keys: keyword") Samples.one_task.
Proof. vm_compute. reflexivity. Qed.

(** *** A task that never passes validation *)

(** One rejected execution: a single 'error' write and a row that differs
    from the old one in status, timestamp and message at most. *)
Lemma process_single_task_rejected env task (tbl : Table) r :
  tbl !! t_task_id task = Some r → fails_validation (t_payload task) →
  ∃ r', (process_single_task env task tbl).1 !! t_task_id task = Some r'
        ∧ Forall (is_status_write (t_task_id task)) (process_single_task env task tbl).2
        ∧ length (process_single_task env task tbl).2 = 1
        ∧ attempts r' = attempts r ∧ payload r' = payload r
        ∧ task_type r' = task_type r ∧ created_at r' = created_at r
        ∧ (status r' = status r ∨ status r' = error)
        ∧ (db_conn env 0 = true → status r' = error).
Proof.
  intros Hr Hv. destruct (process_single_task_invalid env task tbl Hv) as (msg & -> & _).
  rewrite (write_status_lookup _ _ _ _ _ _ _ Hr). eexists. split; [done|].
  split; [repeat constructor; by eexists|]. split; [done|].
  destruct (db_conn env 0); simpl; naive_solver.
Qed.

Lemma process_single_task_rejected_ne env task (tbl : Table) id' :
  fails_validation (t_payload task) → t_task_id task ≠ id' →
  (process_single_task env task tbl).1 !! id' = tbl !! id'.
Proof.
  intros Hv Hne. destruct (process_single_task_invalid env task tbl Hv) as (msg & -> & _).
  unfold write_status. simpl. by apply update_task_status_lookup_ne.
Qed.



(** A task that fails validation and is the oldest claimable one is what
    every cycle of the worker loop fetches and processes: the loop does what
    [run_rounds] does on that task, and no younger task is reached. *)
Lemma invalid_task_blocks_queue json_loads cfg (cycles : list (bool * Env)) id r
    (tbl : Table) :
  tbl !! id = Some r →
  status r = pending ∨ status r = error →
  (attempts r < default 3 (max_task_retries cfg))%Z →
  fails_validation (load_payload json_loads (payload r)) →
  (∀ id' r0, id' ≠ id → tbl !! id' = Some r0 →
     eligible (default 3%Z (max_task_retries cfg)) r0 →
     (created_at r < created_at r0)%Z) →
  Forall (λ c, c.1 = true) cycles →
  run_worker_loop json_loads cfg cycles tbl
  = run_rounds cycles.*2 (row_to_task json_loads (id, r)) tbl.
Proof.
  intros Hr Hst Hatt Hv Hold Hconn.
  set (task := row_to_task json_loads (id, r)).
  set (max := default 3%Z (max_task_retries cfg)) in *.
  assert (Hgen : ∀ (tbl : Table) r0,
            tbl !! id = Some r0 → attempts r0 = attempts r → created_at r0 = created_at r →
            status r0 = pending ∨ status r0 = error →
            row_to_task json_loads (id, r0) = task →
            (∀ id' r1, id' ≠ id → tbl !! id' = Some r1 → eligible max r1 →
               (created_at r < created_at r1)%Z) →
            run_worker_loop json_loads cfg cycles tbl = run_rounds cycles.*2 task tbl).
  { clear tbl Hr Hold.
    induction cycles as [|[fetch env] cycles IH]; intros tbl r0 Hr0 Ha0 Hc0 Hs0 Ht0 Hold;
      [done|].
    apply Forall_cons in Hconn as [Hfetch Hconn]. simpl in Hfetch. subst fetch.
    cbn [run_worker_loop run_rounds fmap list_fmap snd].
    unfold worker_cycle.
    rewrite (get_pending_tasks_one json_loads cfg tbl id r0 Hr0).
    - rewrite Ht0.
      destruct (process_single_task_rejected env task tbl r0 Hr0 Hv)
        as (r1 & Hr1 & _ & _ & Ha1 & Hp1 & Hty1 & Hc1 & Hs1 & _).
      pose proof (process_single_task_rejected_ne env task tbl) as Hother.
      destruct (process_single_task env task tbl) as [tbl1 evs] eqn:Ep. simpl in Hr1, Hother.
      rewrite (IH Hconn tbl1 r1); [done|done|congruence|congruence| | |].
      + destruct Hs1 as [Hs1 | Hs1]; [rewrite Hs1; exact Hs0 | by right].
      + rewrite <- Ht0. unfold row_to_task. simpl. by rewrite Ha1, Hp1, Hty1.
      + intros id' r2 Hne Hr2 Hel. apply (Hold id' r2 Hne); [|done].
        rewrite <- Hr2. symmetry. apply Hother; [done|]. simpl. congruence.
    - split; [|destruct Hs0 as [Hs0 | Hs0]; rewrite Hs0; done].
      destruct Hs0 as [Hs0 | Hs0]; [by left|]. right. split; [done|]. lia.
    - intros id' r1 Hne Hr1 Hel. rewrite Hc0. by eapply Hold. }
  by apply (Hgen tbl r).
Qed.

End WorkerFacts.

(** * Properties of the text generation stage *)

Module WorkflowFacts.
Import Workflow.

Section Loop.
Variable max_retries : Z.
Variable process_links : string → string.
Variable api : nat → ApiOutcome.
Variable target : Z.





End Loop.





(** Scenario C: 1400 words against a target of 1500 are accepted at the first
    call. *)
Example generate_content_1400_of_1500 :
  generate_content true 3 (λ c, c) (λ _, ApiText (Samples.repeat_word 1400))
    (Some "prompt") 1500
  = mkGenResult (Some (py_strip (Samples.repeat_word 1400))) None 1.
Proof. vm_compute. reflexivity. Qed.

(** Scenario C: 1000 words against a target of 1500 are tried four times and
    then returned with the word count error. *)
Example generate_content_1000_of_1500 :
  generate_content true 3 (λ c, c) (λ _, ApiText (Samples.repeat_word 1000))
    (Some "prompt") 1500
  = mkGenResult (Some (py_strip (Samples.repeat_word 1000)))
      (Some "Word count 1000 is less than 90% of target 1500") 4.
Proof. vm_compute. reflexivity. Qed.

(** The text returned when the budget is spent is the latest one, also when
    an earlier one was longer, and nothing is returned when the latest
    response was empty. *)
Example generate_content_returns_latest_text :
  generate_content true 1 (λ c, c)
    (λ n, if decide (n = 0) then ApiText (Samples.repeat_word 1000) else ApiText "")
    (Some "prompt") 1500
  = mkGenResult None (Some "Generated content potentially invalid or refused.") 2.
Proof. vm_compute. reflexivity. Qed.

End WorkflowFacts.

(** * Further properties of the task store *)

Module StoreMore.
Import Database DatabaseFacts.

(** [add_task] either queues nothing (it returns [None] and the table is what
    it was) or returns the id it was given, which was free, and the table has
    gained exactly that row: 'pending', no attempts, no error, all other rows
    as before. *)
Theorem add_task_result conn now id ty pj (tbl : Table) :
  match (add_task conn now id ty pj tbl).2 with
  | None => (add_task conn now id ty pj tbl).1 = tbl
  | Some i =>
      i = id ∧ tbl !! id = None
      ∧ (add_task conn now id ty pj tbl).1 !! id
        = Some {| task_type := ty; payload := Some pj; status := pending; created_at := now;
                  updated_at := now; attempts := 0; last_error := None |}
      ∧ dom (add_task conn now id ty pj tbl).1 = {[id]} ∪ dom tbl
      ∧ ∀ id', id' ≠ id → (add_task conn now id ty pj tbl).1 !! id' = tbl !! id'
  end.
Proof.
  unfold add_task. destruct conn; simpl; [|done].
  destruct (tbl !! id) eqn:Hid; simpl; [done|].
  split; [done|]. split; [done|]. split; [apply lookup_insert_eq|].
  split; [apply dom_insert_L|]. intros id' Hne. by apply lookup_insert_ne.
Qed.

(** X1. Enqueue, then fetch: a task queued under a free id is handed out by every
    later fetch whose limit exceeds the number of rows there were, with no
    attempts and its payload parsed. *)
Theorem add_task_then_fetch json_loads cfg now id ty pj (tbl : Table) limit :
  tbl !! id = None → (Z.of_nat (size tbl) < limit)%Z →
  (add_task true now id ty pj tbl).2 = Some id
  ∧ {| t_task_id := id; t_task_type := ty;
       t_payload := load_payload json_loads (Some pj); t_attempts := 0 |}
    ∈ get_pending_tasks json_loads cfg true limit (add_task true now id ty pj tbl).1.
Proof.
  intros Hid Hlimit. unfold add_task. rewrite Hid. simpl. split; [done|].
  set (r := {| task_type := ty; payload := Some pj; status := pending; created_at := now;
               updated_at := now; attempts := 0; last_error := None |}).
  change (row_to_task json_loads (id, r)
          ∈ get_pending_tasks json_loads cfg true limit (<[id:=r]> tbl)).
  apply get_pending_tasks_elem.
  - apply lookup_insert_eq.
  - split; [by left | done].
  - rewrite map_size_insert_None by done. lia.
Qed.

Lemma add_task_then_fetch_witness :
  (add_task true 200 "task-9" "generate_content" "{...}" Samples.three_tasks).2 = Some "task-9"
  ∧ {| t_task_id := "task-9"; t_task_type := "generate_content";
       t_payload := load_payload (λ _, None) (Some "{...}"); t_attempts := 0 |}
    ∈ get_pending_tasks (λ _, None) WORKER_CONFIG true 10
        (add_task true 200 "task-9" "generate_content" "{...}" Samples.three_tasks).1.
Proof.
  apply (add_task_then_fetch (λ _, None) WORKER_CONFIG 200 "task-9" "generate_content"
           "{...}" Samples.three_tasks 10).
  - reflexivity.
  - vm_compute. reflexivity.
Defined.

(** X2. [update_task_status] never adds or removes a row, touches no row but the
    one named, and on that row leaves the type, the payload and the creation
    time alone; without an [attempts] argument the attempt count stays. *)
Theorem update_task_status_keeps_rows conn now id st att err (tbl : Table) :
  dom (update_task_status conn now id st att err tbl).1 = dom tbl
  ∧ (∀ id', id' ≠ id → (update_task_status conn now id st att err tbl).1 !! id' = tbl !! id')
  ∧ (∀ r', (update_task_status conn now id st att err tbl).1 !! id = Some r' →
       ∃ r, tbl !! id = Some r ∧ task_type r' = task_type r ∧ payload r' = payload r
            ∧ created_at r' = created_at r ∧ (att = None → attempts r' = attempts r)).
Proof.
  split; [|split].
  - unfold update_task_status. destruct conn; simpl; [|done].
    destruct (tbl !! id) as [r|] eqn:Hr; simpl; [|done].
    apply dom_insert_lookup_L. by eexists.
  - intros id' Hne. by apply update_task_status_lookup_ne.
  - intros r' Hr'. destruct (tbl !! id) as [r|] eqn:Hr.
    + rewrite (update_task_status_lookup _ _ _ _ _ _ _ r Hr) in Hr'.
      exists r. split; [done|]. destruct conn; simplify_eq; [|done].
      simpl. repeat split. by intros ->.
    + unfold update_task_status in Hr'. destruct conn; simpl in Hr'; [|congruence].
      rewrite Hr in Hr'. simpl in Hr'. congruence.
Qed.

Lemma update_task_status_refused conn now id st att err (tbl : Table) :
  (update_task_status conn now id st att err tbl).2 = false →
  (update_task_status conn now id st att err tbl).1 = tbl.
Proof.
  unfold update_task_status. destruct conn; simpl; [|done].
  destruct (tbl !! id) as [r|] eqn:Hr; simpl; [|done].
  intros Hsame%bool_decide_eq_false. apply dec_stable in Hsame. rewrite Hsame.
  by apply insert_id.
Qed.

(** X3. A [False] from [update_task_status] means the table is what it was: the
    store was not reached, no row has the id, or the row already held exactly
    what was written. *)
Theorem update_task_status_false_unchanged conn now id st att err (tbl : Table) :
  (update_task_status conn now id st att err tbl).2 = false →
  (update_task_status conn now id st att err tbl).1 = tbl.
Proof. apply update_task_status_refused. Qed.

Lemma update_task_status_false_unchanged_witness :
  (update_task_status true 100 "task-1" pending None None Samples.one_task).1
  = Samples.one_task.
Proof.
  apply (update_task_status_false_unchanged true 100 "task-1" pending None None
           Samples.one_task).
  vm_compute. reflexivity.
Defined.

(** X4. Writing the same status, attempts and message twice leaves what the
    second write alone would have left: the first write shows only in the
    timestamp, which the second overwrites. *)
Theorem update_task_status_twice now1 now2 id st att err (tbl : Table) :
  (update_task_status true now2 id st att err
     (update_task_status true now1 id st att err tbl).1).1
  = (update_task_status true now2 id st att err tbl).1.
Proof.
  unfold update_task_status. destruct (tbl !! id) as [r|] eqn:Hr; simpl; [|by rewrite Hr].
  rewrite lookup_insert_eq. simpl. rewrite insert_insert_eq. f_equal.
  unfold set_row. simpl. by destruct att.
Qed.

(** X5. The fetch comes back empty exactly when no row satisfies the WHERE
    clause, for any limit of at least 1. *)
Theorem get_pending_tasks_nil json_loads cfg limit (tbl : Table) :
  (1 ≤ limit)%Z →
  get_pending_tasks json_loads cfg true limit tbl = []
  ↔ ∀ id r, tbl !! id = Some r → ¬ eligible (default 3%Z (max_task_retries cfg)) r.
Proof.
  intros Hlimit. unfold get_pending_tasks, select_rows.
  destruct (limit <? 0)%Z eqn:E; [apply Z.ltb_lt in E; lia|].
  destruct (Z.to_nat limit) as [|n] eqn:En; [lia|].
  split.
  - intros Hnil id r Hr Hel.
    assert (Hin : (id, r) ∈ candidates (default 3%Z (max_task_retries cfg)) tbl)
      by by apply elem_of_candidates.
    destruct (candidates _ tbl) as [|kr l]; [by apply elem_of_nil in Hin | done].
  - intros Hnone. destruct (candidates _ tbl) as [|[k r] l] eqn:Ec; [done|]. exfalso.
    assert (Hin : (k, r) ∈ candidates (default 3%Z (max_task_retries cfg)) tbl)
      by (rewrite Ec; apply elem_of_cons; by left).
    apply elem_of_candidates in Hin as [Hr Hel]. by apply (Hnone k r).
Qed.

Lemma get_pending_tasks_nil_witness :
  get_pending_tasks (λ _, None) WORKER_CONFIG true 1 (∅ : Table) = []
  ↔ ∀ id r, (∅ : Table) !! id = Some r →
            ¬ eligible (default 3%Z (max_task_retries WORKER_CONFIG)) r.
Proof. apply (get_pending_tasks_nil (λ _, None) WORKER_CONFIG 1 ∅). lia. Defined.

End StoreMore.

(** * Further properties of the worker *)

Module WorkerMore.
Import Database Worker Notions DatabaseFacts StoreMore WorkerFacts.

Lemma touches_only_refl id (tbl : Table) : touches_only id tbl tbl.
Proof. split; [done|]. split; [done|]. intros r' Hr'. by exists r'. Qed.

Lemma touches_only_trans id (t1 t2 t3 : Table) :
  touches_only id t1 t2 → touches_only id t2 t3 → touches_only id t1 t3.
Proof.
  intros (Hd1 & Ho1 & Hr1) (Hd2 & Ho2 & Hr2). split; [congruence|]. split.
  - intros id' Hne. rewrite Ho2, Ho1; done.
  - intros r3 Hl3. destruct (Hr2 r3 Hl3) as (r2 & Hl2 & ? & ? & ?).
    destruct (Hr1 r2 Hl2) as (r1 & Hl1 & ? & ? & ?). exists r1. split; [done|].
    repeat split; congruence.
Qed.

Lemma update_task_status_touches_only conn now id st att err (tbl : Table) :
  touches_only id tbl (update_task_status conn now id st att err tbl).1.
Proof.
  split; [|split].
  - unfold update_task_status. destruct conn; simpl; [|done].
    destruct (tbl !! id) as [r|] eqn:Hr; simpl; [|done].
    apply dom_insert_lookup_L. by eexists.
  - intros id' Hne. by apply update_task_status_lookup_ne.
  - intros r' Hr'. destruct (tbl !! id) as [r|] eqn:Hr.
    + rewrite (update_task_status_lookup _ _ _ _ _ _ _ r Hr) in Hr'.
      exists r. split; [done|]. by destruct conn; simplify_eq.
    + unfold update_task_status in Hr'. destruct conn; simpl in Hr'; [|congruence].
      rewrite Hr in Hr'. simpl in Hr'. congruence.
Qed.

Lemma process_single_task_touches env task (tbl : Table) :
  touches_only (t_task_id task) tbl (process_single_task env task tbl).1.
Proof.
  unfold process_single_task.
  destruct (t_payload task) as [payload|]; [|apply update_task_status_touches_only].
  case_bool_decide; [apply update_task_status_touches_only|].
  case_bool_decide; simpl; [|apply update_task_status_touches_only].
  pose proof (update_task_status_touches_only (db_conn env 0) (db_now env 0) (t_task_id task)
                processing (Some (t_attempts task + 1)%Z) None tbl) as H1.
  fold (mark_task_processing (db_conn env 0) (db_now env 0) (t_task_id task)
          (t_attempts task) tbl) in H1.
  destruct (mark_task_processing _ _ _ _ tbl) as [tbl1 marked]. simpl in H1.
  destruct marked; simpl; [|done].
  eapply touches_only_trans; [exact H1|].
  unfold after_claim, write_status.
  destruct (init_services env); simpl; apply update_task_status_touches_only.
Qed.

(** X6. An execution never adds or removes a task, touches no row but that of
    the task it was given, and leaves the type, the payload and the creation
    time of that row alone. *)
Theorem process_single_task_touches_only env task (tbl : Table) :
  dom (process_single_task env task tbl).1 = dom tbl
  ∧ (∀ id', id' ≠ t_task_id task →
       (process_single_task env task tbl).1 !! id' = tbl !! id')
  ∧ (∀ r', (process_single_task env task tbl).1 !! t_task_id task = Some r' →
       ∃ r, tbl !! t_task_id task = Some r ∧ task_type r' = task_type r
            ∧ payload r' = payload r ∧ created_at r' = created_at r).
Proof. apply process_single_task_touches. Qed.

Lemma failed_claim env task payload (tbl : Table) :
  t_payload task = Some payload → missing_keys payload = [] →
  (mark_task_processing (db_conn env 0) (db_now env 0) (t_task_id task)
     (t_attempts task) tbl).2 = false →
  process_single_task env task tbl
  = (tbl, [EvMarkTaskProcessing (t_task_id task) (t_attempts task)]).
Proof.
  intros Hp Hnil Hmark. unfold process_single_task. rewrite Hp.
  rewrite (bool_decide_eq_false_2 _ (missing_keys_nil_nonempty _ Hnil)).
  rewrite (bool_decide_eq_true_2 _ Hnil). simpl negb. cbv iota.
  pose proof (update_task_status_refused _ _ _ _ _ _ _ Hmark) as Hsame.
  fold (mark_task_processing (db_conn env 0) (db_now env 0) (t_task_id task)
          (t_attempts task) tbl) in Hsame.
  destruct (mark_task_processing _ _ _ _ tbl) as [tbl1 marked].
  simpl in Hmark, Hsame. by subst.
Qed.

(** X7. A claim that fails is abandoned: the only call made is the claim, and the
    table is what it was. *)
Theorem failed_claim_abandoned env task payload (tbl : Table) :
  t_payload task = Some payload → missing_keys payload = [] →
  (mark_task_processing (db_conn env 0) (db_now env 0) (t_task_id task)
     (t_attempts task) tbl).2 = false →
  process_single_task env task tbl
  = (tbl, [EvMarkTaskProcessing (t_task_id task) (t_attempts task)]).
Proof. apply failed_claim. Qed.

Lemma failed_claim_abandoned_witness :
  process_single_task (Samples.env_with true Samples.generated (Returned Samples.published)
                         (Response 200))
    (Samples.task_with (Some (Samples.full_payload Samples.callback_endpoint))) ∅
  = (∅, [EvMarkTaskProcessing "task-1" 0]).
Proof.
  apply (failed_claim_abandoned
           (Samples.env_with true Samples.generated (Returned Samples.published) (Response 200))
           (Samples.task_with (Some (Samples.full_payload Samples.callback_endpoint)))
           (Samples.full_payload Samples.callback_endpoint) ∅).
  - reflexivity.
  - vm_compute. reflexivity.
  - vm_compute. reflexivity.
Defined.

(** X8. Attempt accounting for a task handed out with the attempt count of its
    row: an execution that claims the task raises the count by exactly one,
    whatever happens afterwards, and an execution that does not claim it
    (rejected payload or failed claim) leaves the count alone. *)
Theorem attempts_raised_once_per_claim env task (tbl : Table) r :
  tbl !! t_task_id task = Some r → t_attempts task = attempts r →
  ∃ r', (process_single_task env task tbl).1 !! t_task_id task = Some r'
        ∧ ((∃ payload, claimed env task payload tbl) → attempts r' = (attempts r + 1)%Z)
        ∧ ((∀ payload, ¬ claimed env task payload tbl) → attempts r' = attempts r).
Proof.
  intros Hr Ha.
  destruct (t_payload task) as [payload|] eqn:Hp.
  2: { destruct (process_single_task_rejected env task tbl r Hr) as (r' & Hr' & _ & _ & Ha' & _).
       { unfold fails_validation. by rewrite Hp. }
       exists r'. split; [done|]. split; [|done].
       intros (payload & Hp' & _). congruence. }
  destruct (decide (missing_keys payload = [])) as [Hnil | Hmiss].
  2: { destruct (process_single_task_rejected env task tbl r Hr) as (r' & Hr' & _ & _ & Ha' & _).
       { unfold fails_validation. by rewrite Hp. }
       exists r'. split; [done|]. split; [|done].
       intros (payload' & Hp' & Hnil' & _). congruence. }
  destruct ((mark_task_processing (db_conn env 0) (db_now env 0) (t_task_id task)
               (t_attempts task) tbl).2) eqn:Hmark.
  - assert (Hcl : claimed env task payload tbl) by done.
    destruct (process_single_task_after_claim _ _ _ _ Hcl) as (r0 & tbl1 & Hr0 & Hr1 & ->).
    simplify_eq. simpl. unfold after_claim.
    destruct (init_services env); simpl;
      rewrite (update_task_status_lookup _ _ _ _ _ _ _ _ Hr1);
      (eexists; split; [done|]); (split; [|intros Hn; by destruct (Hn payload)]);
      intros _; destruct (db_conn env 1); simpl; congruence.
  - rewrite (failed_claim env task payload tbl Hp Hnil Hmark). simpl.
    exists r. split; [done|]. split; [|done].
    intros (payload' & Hp' & _ & Hm). simplify_eq. congruence.
Qed.

Lemma attempts_raised_once_per_claim_witness :
  ∃ r', (process_single_task Samples.happy_env
           (Samples.task_with (Some (Samples.full_payload Samples.callback_endpoint)))
           Samples.one_task).1 !! "task-1" = Some r'
        ∧ ((∃ payload, claimed Samples.happy_env
                         (Samples.task_with (Some (Samples.full_payload
                                                     Samples.callback_endpoint)))
                         payload Samples.one_task) →
           attempts r' = (attempts Samples.queued_row + 1)%Z)
        ∧ ((∀ payload, ¬ claimed Samples.happy_env
                           (Samples.task_with (Some (Samples.full_payload
                                                       Samples.callback_endpoint)))
                           payload Samples.one_task) →
           attempts r' = attempts Samples.queued_row).
Proof.
  apply (attempts_raised_once_per_claim Samples.happy_env
           (Samples.task_with (Some (Samples.full_payload Samples.callback_endpoint)))
           Samples.one_task Samples.queued_row).
  - reflexivity.
  - reflexivity.
Defined.

(** The calls of the pipeline and of the callback, for every outcome of the
    collaborators: in the order generation, image, publishing, callback, and
    each at most once. *)
Lemma finish_calls_ordered env task payload :
  StronglySorted lt (stage_rank <$> fin_events (finish env task payload))
  ∧ Forall (λ n, 1 ≤ n ≤ 4) (stage_rank <$> fin_events (finish env task payload)).
Proof.
  unfold finish, send_callback, run_task, run_generate.
  destruct (String.eqb (t_task_type task) "generate_content"); simpl.
  2: { repeat (case_match; simpl; simplify_eq);
         split; repeat constructor; lia. }
  destruct (generate_content env) as [[c ge]|m]; simpl.
  2: { repeat (case_match; simpl; simplify_eq);
         split; repeat constructor; lia. }
  destruct (truthy_str c); simpl.
  2: { repeat (case_match; simpl; simplify_eq);
         split; repeat constructor; lia. }
  destruct (generate_and_upload_featured_image env) as [img|m]; simpl.
  2: { repeat (case_match; simpl; simplify_eq);
         split; repeat constructor; lia. }
  destruct (post_content_to_wordpress env) as [pr|m]; simpl.
  2: { repeat (case_match; simpl; simplify_eq);
         split; repeat constructor; lia. }
  destruct (after_post pr ge _) as [cp3 st]; simpl.
  repeat (case_match; simpl; simplify_eq); split; repeat constructor; lia.
Qed.

(** X9. Every execution makes its calls in one order: the claim, text
    generation, image generation, publishing, the callback, the status
    write; none of them is made twice. *)
Theorem process_single_task_calls_ordered env task (tbl : Table) :
  StronglySorted lt (stage_rank <$> (process_single_task env task tbl).2).
Proof.
  unfold process_single_task, write_status.
  destruct (t_payload task) as [payload|]; [|repeat constructor].
  case_bool_decide; [repeat constructor|].
  case_bool_decide; simpl; [|repeat constructor].
  destruct (mark_task_processing _ _ _ _ tbl) as [tbl1 marked].
  destruct marked; simpl; [|repeat constructor].
  unfold after_claim, write_status.
  destruct (init_services env) as [|ve|init_err]; simpl.
  2, 3: repeat constructor; lia.
  destruct (finish_calls_ordered env task payload) as [Hs Hb].
  constructor.
  - rewrite fmap_app. apply StronglySorted_app_2; [|done|repeat constructor].
    intros x1 x2 Hx1 [-> | Hx2%elem_of_nil]%elem_of_cons; [|done].
    rewrite Forall_forall in Hb. specialize (Hb _ Hx1). simpl. lia.
  - rewrite fmap_app. apply Forall_app. split.
    + rewrite Forall_forall in Hb. apply Forall_forall. intros x Hx.
      specialize (Hb _ Hx). lia.
    + repeat constructor.
Qed.

(** *** The image stage is best effort *)

Lemma after_post_outcome pr ge cp cp' :
  cp_status cp = cp_status cp' →
  (after_post pr ge cp).2 = (after_post pr ge cp').2
  ∧ cp_status (after_post pr ge cp).1 = cp_status (after_post pr ge cp').1
  ∧ cp_error_message (after_post pr ge cp).1 = cp_error_message (after_post pr ge cp').1.
Proof.
  intros Hst. unfold after_post.
  repeat (case_match; simpl in *; simplify_eq); done.
Qed.

Lemma send_callback_outcome env id payload cp cp' st :
  cp_status cp = cp_status cp' → cp_error_message cp = cp_error_message cp' →
  (send_callback env id payload cp st).1.2 = (send_callback env id payload cp' st).1.2
  ∧ cp_error_message (send_callback env id payload cp st).1.1
    = cp_error_message (send_callback env id payload cp' st).1.1.
Proof.
  intros Hst Herr. unfold send_callback.
  repeat (case_match; simpl in *; simplify_eq); rewrite ?Hst; done.
Qed.

Lemma run_task_with_image env task payload cp a b :
  generate_and_upload_featured_image env = Returned a →
  tr_status (run_task (with_image (Returned b) env) task payload cp)
  = tr_status (run_task env task payload cp)
  ∧ cp_status (tr_payload (run_task (with_image (Returned b) env) task payload cp))
    = cp_status (tr_payload (run_task env task payload cp))
  ∧ cp_error_message (tr_payload (run_task (with_image (Returned b) env) task payload cp))
    = cp_error_message (tr_payload (run_task env task payload cp)).
Proof.
  intros Hi. unfold run_task, run_generate, with_image. simpl. rewrite Hi.
  destruct (String.eqb (t_task_type task) "generate_content"); simpl; [|done].
  destruct (generate_content env) as [[c ge]|m]; simpl; [|done].
  destruct (truthy_str c); simpl; [|done].
  destruct (post_content_to_wordpress env) as [pr|m]; simpl; [|done].
  destruct (after_post_outcome pr ge
              (set_featured_image_id b (set_generated_content c cp))
              (set_featured_image_id a (set_generated_content c cp)) eq_refl)
    as (H2 & Hs & He).
  destruct (after_post pr ge (set_featured_image_id b _)) as [cpb stb].
  destruct (after_post pr ge (set_featured_image_id a _)) as [cpa sta].
  simpl in *. by subst.
Qed.

Lemma finish_with_image env task payload a b :
  generate_and_upload_featured_image env = Returned a →
  fin_status (finish (with_image (Returned b) env) task payload)
  = fin_status (finish env task payload)
  ∧ fin_error (finish (with_image (Returned b) env) task payload)
    = fin_error (finish env task payload).
Proof.
  intros Hi. unfold finish.
  destruct (run_task_with_image env task payload
              (initial_callback_payload (t_task_id task) payload) a b Hi) as (Hst & Hcs & Hce).
  rewrite Hst.
  destruct (send_callback_outcome env (t_task_id task) payload
              (tr_payload (run_task (with_image (Returned b) env) task payload
                             (initial_callback_payload (t_task_id task) payload)))
              (tr_payload (run_task env task payload
                             (initial_callback_payload (t_task_id task) payload)))
              (tr_status (run_task env task payload
                            (initial_callback_payload (t_task_id task) payload))) Hcs Hce)
    as [H1 H2].
  change (send_callback (with_image (Returned b) env)) with (send_callback env).
  destruct (send_callback env _ _ (tr_payload (run_task (with_image _ env) _ _ _)) _)
    as [[cpb stb] evb].
  destruct (send_callback env _ _ (tr_payload (run_task env _ _ _)) _) as [[cpa sta] eva].
  simpl in *. by subst.
Qed.

(** X10. Whether the image stage comes back with an image or with none makes no
    difference to the store: the execution leaves the same table. *)
Theorem image_result_immaterial env task (tbl : Table) a b :
  generate_and_upload_featured_image env = Returned a →
  (process_single_task (with_image (Returned b) env) task tbl).1
  = (process_single_task env task tbl).1.
Proof.
  intros Hi. unfold process_single_task, write_status.
  change (db_conn (with_image (Returned b) env)) with (db_conn env).
  change (db_now (with_image (Returned b) env)) with (db_now env).
  destruct (t_payload task) as [payload|]; [|done].
  case_bool_decide; [done|]. case_bool_decide; simpl; [|done].
  destruct (mark_task_processing _ _ _ _ tbl) as [tbl1 marked].
  destruct marked; simpl; [|done].
  unfold after_claim, write_status.
  change (init_services (with_image (Returned b) env)) with (init_services env).
  change (db_conn (with_image (Returned b) env)) with (db_conn env).
  change (db_now (with_image (Returned b) env)) with (db_now env).
  destruct (init_services env); simpl; [|done..].
  destruct (finish_with_image env task payload a b Hi) as [-> ->]. done.
Qed.

Lemma image_result_immaterial_witness :
  (process_single_task (with_image (Returned None) Samples.happy_env)
     (Samples.task_with (Some (Samples.full_payload Samples.callback_endpoint)))
     Samples.one_task).1
  = (process_single_task Samples.happy_env
       (Samples.task_with (Some (Samples.full_payload Samples.callback_endpoint)))
       Samples.one_task).1.
Proof.
  apply (image_result_immaterial Samples.happy_env
           (Samples.task_with (Some (Samples.full_payload Samples.callback_endpoint)))
           Samples.one_task (Some 9%Z) None).
  reflexivity.
Defined.

(** *** Service initialisation *)

(** X11. When the services do not start, the execution makes the claim and one
    'error' write and nothing else: no stage runs and no callback is posted.
    The message is the [ValueError]'s own text, or the prefixed text of any
    other exception. *)
Theorem init_failure_writes_error env task payload (tbl : Table) :
  claimed env task payload tbl → init_services env ≠ InitOk →
  (process_single_task env task tbl).2
  = [EvMarkTaskProcessing (t_task_id task) (t_attempts task);
     EvUpdateTaskStatus (t_task_id task) error None
       (Some match init_services env with
             | InitValueError ve => ve
             | InitException init_err =>
                 "Unexpected error initializing services for task " +:+ t_task_id task +:+
                 ": " +:+ init_err
             | InitOk => ""
             end)].
Proof.
  intros Hcl Hinit.
  destruct (process_single_task_after_claim _ _ _ _ Hcl) as (r & tbl1 & Hr & Hr1 & ->).
  unfold after_claim. by destruct (init_services env).
Qed.

Lemma init_failure_writes_error_witness :
  (process_single_task
     (mkEnv (λ _, true) (λ _, 101%Z) (InitValueError "Missing GEMINI_API_KEY from config")
        Samples.generated (Returned None) (Returned Samples.published) "" true VNone
        (Response 200) (λ _, ""))
     (Samples.task_with (Some (Samples.full_payload Samples.callback_endpoint)))
     Samples.one_task).2
  = [EvMarkTaskProcessing "task-1" 0;
     EvUpdateTaskStatus "task-1" error None (Some "Missing GEMINI_API_KEY from config")].
Proof.
  apply (init_failure_writes_error
           (mkEnv (λ _, true) (λ _, 101%Z)
              (InitValueError "Missing GEMINI_API_KEY from config")
              Samples.generated (Returned None) (Returned Samples.published) "" true VNone
              (Response 200) (λ _, ""))
           (Samples.task_with (Some (Samples.full_payload Samples.callback_endpoint)))
           (Samples.full_payload Samples.callback_endpoint) Samples.one_task).
  - repeat split; vm_compute; reflexivity.
  - discriminate.
Defined.

(** *** The callback *)

Lemma callback_posts_app evs evs' :
  callback_posts (evs ++ evs') = callback_posts evs ++ callback_posts evs'.
Proof. apply omap_app. Qed.

Lemma callback_posts_nil evs :
  Forall (λ ev, ¬ is_callback_post ev) evs → callback_posts evs = [].
Proof.
  induction 1 as [|ev evs Hev _ IH]; [done|].
  unfold callback_posts in *. destruct ev; simpl; try exact IH.
  destruct Hev. by eexists _, _.
Qed.

Lemma run_task_callback_status env task payload :
  cp_status (tr_payload (run_task env task payload
                           (initial_callback_payload (t_task_id task) payload)))
  = (if decide (tr_status (run_task env task payload
                             (initial_callback_payload (t_task_id task) payload)) = completed)
     then "success" else "error").
Proof.
  unfold run_task, run_generate, after_post.
  repeat (case_match; simpl in *; simplify_eq; try done).
Qed.



(** The final write of an execution whose callback was delivered carries
    what the try block left. *)
Lemma final_write_delivered env task payload (tbl : Table) :
  claimed env task payload tbl → init_services env = InitOk →
  callback_delivered env payload →
  last (process_single_task env task tbl).2
  = Some (EvUpdateTaskStatus (t_task_id task)
            (tr_status (run_task env task payload
                          (initial_callback_payload (t_task_id task) payload)))
            None
            (cp_error_message
               (tr_payload (run_task env task payload
                              (initial_callback_payload (t_task_id task) payload))))).
Proof.
  intros Hcl Hinit (Hurl & Hcred & code & Hreq & Hok).
  destruct (process_single_task_claimed _ _ _ _ Hcl Hinit) as (r & Hr & -> & _).
  destruct Hcl as (Hp & Hnil & Hmark).
  destruct (finish_callback_ok env task payload code Hnil Hurl Hcred Hreq Hok) as [-> ->].
  rewrite app_comm_cons. apply last_snoc.
Qed.

Lemma sample_delivered fw gen post url :
  callback_delivered (Samples.env_with fw gen post (Response 200))
    (Samples.full_payload (VStr url)) ↔ url ≠ "".
Proof.
  unfold callback_delivered. simpl. split.
  - intros (Hurl & _) ->. done.
  - intros Hne. split; [|split; [done|by exists 200%Z]].
    change (negb (String.eqb url "") = true). apply negb_true_iff. by apply String.eqb_neq.
Qed.

(** X13. What the requester is told: with a callback URL and the credentials at
    hand exactly one callback is posted, to the URL of the payload; its body
    names the task, carries status 'success' when every stage succeeded and
    'error' otherwise, has no null entry and never holds the generated
    text. *)
Theorem callback_body env task payload (tbl : Table) :
  claimed env task payload tbl → init_services env = InitOk →
  truthy (item payload "callback_url") = true → wp_credentials env = true →
  ∃ data,
    callback_posts (process_single_task env task tbl).2
    = [(item payload "callback_url", data)]
    ∧ ("task_id", VStr (t_task_id task)) ∈ data
    ∧ (pipeline_succeeded env task → ("status", VStr "success") ∈ data)
    ∧ (¬ pipeline_succeeded env task → ("status", VStr "error") ∈ data)
    ∧ (∀ v, ("status", v) ∈ data → v = VStr "success" ∨ v = VStr "error")
    ∧ Forall (λ kv, kv.2 ≠ VNone ∧ kv.1 ≠ "generated_content") data.
Proof.
  intros Hcl Hinit Hurl Hcred.
  destruct (process_single_task_claimed _ _ _ _ Hcl Hinit) as (r & Hr & -> & _).
  destruct Hcl as (Hp & Hnil & Hmark).
  set (cp0 := initial_callback_payload (t_task_id task) payload).
  assert (Hev : fin_events (finish env task payload)
                = tr_events (run_task env task payload cp0)
                  ++ [EvCallbackPost (item payload "callback_url")
                        (wp_callback_data_clean (tr_payload (run_task env task payload cp0)))]).
  { unfold finish, send_callback. fold cp0.
    rewrite (callback_url_item _ _ Hnil), Hurl, Hcred. simpl.
    destruct (requests_post env) as [code| | |]; simpl; try done.
    by destruct (raise_for_status code). }
  rewrite Hev.
  exists (wp_callback_data_clean (tr_payload (run_task env task payload cp0))).
  assert (Hid : cp_task_id (tr_payload (run_task env task payload cp0)) = t_task_id task).
  { unfold run_task, run_generate, after_post, cp0.
    repeat (case_match; simpl in *; simplify_eq; try done). }
  pose proof (run_task_callback_status env task payload) as Hst. fold cp0 in Hst.
  split; [|split; [|split; [|split; [|split]]]].
  - rewrite app_comm_cons, callback_posts_app, app_comm_cons, callback_posts_app.
    rewrite callback_posts_nil; [done|].
    constructor; [intros (? & ? & ?); done | apply run_task_calls_no_callback].
  - unfold wp_callback_data_clean. rewrite Hid. apply list_elem_of_filter.
    split; [done|]. set_solver.
  - intros Hok%(run_task_completed env task payload cp0).
    rewrite decide_True in Hst by done.
    unfold wp_callback_data_clean. rewrite Hst. apply list_elem_of_filter.
    split; [done|]. set_solver.
  - intros Hno. rewrite decide_False in Hst.
    + unfold wp_callback_data_clean. rewrite Hst. apply list_elem_of_filter.
      split; [done|]. set_solver.
    + intros Hc. by apply Hno, (run_task_completed env task payload cp0).
  - intros v. unfold wp_callback_data_clean. rewrite list_elem_of_filter, Hst.
    intros [_ Hin]. repeat (apply elem_of_cons in Hin as [Hin | Hin]; [simplify_eq|]).
    + case_decide; auto.
    + by apply elem_of_nil in Hin.
  - apply Forall_forall. intros kv. unfold wp_callback_data_clean.
    rewrite list_elem_of_filter. intros [Hv Hin]. split; [done|].
    repeat (apply elem_of_cons in Hin as [-> | Hin]; [done|]).
    by apply elem_of_nil in Hin.
Qed.

Lemma callback_body_witness :
  ∃ data,
    callback_posts
      (process_single_task Samples.happy_env
         (Samples.task_with (Some (Samples.full_payload Samples.callback_endpoint)))
         Samples.one_task).2
    = [(item (Samples.full_payload Samples.callback_endpoint) "callback_url", data)]
    ∧ ("task_id", VStr "task-1") ∈ data
    ∧ (pipeline_succeeded Samples.happy_env
         (Samples.task_with (Some (Samples.full_payload Samples.callback_endpoint))) →
       ("status", VStr "success") ∈ data)
    ∧ (¬ pipeline_succeeded Samples.happy_env
           (Samples.task_with (Some (Samples.full_payload Samples.callback_endpoint))) →
       ("status", VStr "error") ∈ data)
    ∧ (∀ v, ("status", v) ∈ data → v = VStr "success" ∨ v = VStr "error")
    ∧ Forall (λ kv, kv.2 ≠ VNone ∧ kv.1 ≠ "generated_content") data.
Proof.
  apply (callback_body Samples.happy_env
           (Samples.task_with (Some (Samples.full_payload Samples.callback_endpoint)))
           (Samples.full_payload Samples.callback_endpoint) Samples.one_task).
  - apply sample_claimed. by left.
  - reflexivity.
  - reflexivity.
  - reflexivity.
Defined.

(** *** Outcomes of the try block *)

(** X14. A task of a type other than 'generate_content' runs no stage; once its
    callback is delivered it ends 'error' with a message that names the
    type. *)
Theorem unknown_task_type env task payload (tbl : Table) :
  claimed env task payload tbl → init_services env = InitOk →
  t_task_type task ≠ "generate_content" →
  Forall (λ ev, ¬ is_stage_call ev) (process_single_task env task tbl).2
  ∧ (callback_delivered env payload →
     last (process_single_task env task tbl).2
     = Some (EvUpdateTaskStatus (t_task_id task) error None
               (Some ("Unknown task type received: " +:+ t_task_type task)))).
Proof.
  intros Hcl Hinit Hty. apply String.eqb_neq in Hty.
  assert (Hrun : run_task env task payload (initial_callback_payload (t_task_id task) payload)
                 = mkTryResult
                     (set_error_message
                        (Some ("Unknown task type received: " +:+ t_task_type task))
                        (initial_callback_payload (t_task_id task) payload)) error None []).
  { unfold run_task. by rewrite Hty. }
  split.
  - destruct (process_single_task_claimed _ _ _ _ Hcl Hinit) as (r & Hr & -> & _).
    constructor; [simpl; tauto|]. apply Forall_app.
    split; [|repeat constructor; simpl; tauto].
    unfold finish. rewrite Hrun. simpl. unfold send_callback.
    repeat (case_match; simpl; simplify_eq); repeat constructor; simpl; tauto.
  - intros Hdel. rewrite (final_write_delivered _ _ _ _ Hcl Hinit Hdel). by rewrite Hrun.
Qed.

Lemma unknown_task_type_witness :
  Forall (λ ev, ¬ is_stage_call ev)
    (process_single_task Samples.happy_env
       (mkTask "task-1" "refresh_brief" (Some (Samples.full_payload Samples.callback_endpoint)) 0)
       Samples.one_task).2
  ∧ (callback_delivered Samples.happy_env (Samples.full_payload Samples.callback_endpoint) →
     last (process_single_task Samples.happy_env
             (mkTask "task-1" "refresh_brief"
                (Some (Samples.full_payload Samples.callback_endpoint)) 0)
             Samples.one_task).2
     = Some (EvUpdateTaskStatus "task-1" error None
               (Some ("Unknown task type received: " +:+ "refresh_brief")))).
Proof.
  apply (unknown_task_type Samples.happy_env
           (mkTask "task-1" "refresh_brief"
              (Some (Samples.full_payload Samples.callback_endpoint)) 0)
           (Samples.full_payload Samples.callback_endpoint) Samples.one_task).
  - repeat split; vm_compute; reflexivity.
  - reflexivity.
  - discriminate.
Defined.

Lemma publish_failure_written env task payload (tbl : Table) c ge img pr bp :
  claimed env task payload tbl → init_services env = InitOk →
  t_task_type task = "generate_content" →
  generate_content env = Returned (Some c, ge) → c ≠ "" →
  generate_and_upload_featured_image env = Returned img →
  post_content_to_wordpress env = Returned (Some pr) →
  blog_post pr = Some bp → bp_status bp = Some "error" →
  callback_delivered env payload →
  last (process_single_task env task tbl).2
  = Some (EvUpdateTaskStatus (t_task_id task) error None
            (Some ("Content generated, but WP post creation failed: " +:+
                   default "Unknown WP error" (bp_error bp)))).
Proof.
  intros Hcl Hinit Hty Hg Hc Hi Hp Hb Hs Hdel.
  rewrite (final_write_delivered _ _ _ _ Hcl Hinit Hdel).
  unfold run_task, run_generate, after_post, opt_is.
  rewrite Hty, Hg. simpl String.eqb. cbv iota.
  rewrite (proj2 (truthy_str_Some c) Hc), Hi, Hp. simpl. rewrite Hb. simpl. rewrite Hs.
  rewrite bool_decide_eq_false_2 by done. rewrite bool_decide_eq_true_2 by done.
  simpl. done.
Qed.

(** X15. Publishing fails after the text was generated: once the callback is
    delivered the task ends 'error', and the message carries the publisher's
    error text, or "Unknown WP error" when the publisher gave none. *)
Theorem publish_failure_recorded env task payload (tbl : Table) c ge img pr bp :
  claimed env task payload tbl → init_services env = InitOk →
  t_task_type task = "generate_content" →
  generate_content env = Returned (Some c, ge) → c ≠ "" →
  generate_and_upload_featured_image env = Returned img →
  post_content_to_wordpress env = Returned (Some pr) →
  blog_post pr = Some bp → bp_status bp = Some "error" →
  callback_delivered env payload →
  last (process_single_task env task tbl).2
  = Some (EvUpdateTaskStatus (t_task_id task) error None
            (Some ("Content generated, but WP post creation failed: " +:+
                   default "Unknown WP error" (bp_error bp)))).
Proof. apply publish_failure_written. Qed.

Lemma publish_failure_recorded_witness :
  last (process_single_task
          (Samples.env_with true Samples.generated
             (Returned (Some (mkPostResult (Some (mkBlogPost (Some "error") None None None))
                                None)))
             (Response 200))
          (Samples.task_with (Some (Samples.full_payload Samples.callback_endpoint)))
          Samples.one_task).2
  = Some (EvUpdateTaskStatus "task-1" error None
            (Some ("Content generated, but WP post creation failed: " +:+
                   default "Unknown WP error" None))).
Proof.
  apply (publish_failure_recorded
           (Samples.env_with true Samples.generated
              (Returned (Some (mkPostResult (Some (mkBlogPost (Some "error") None None None))
                                 None)))
              (Response 200))
           (Samples.task_with (Some (Samples.full_payload Samples.callback_endpoint)))
           (Samples.full_payload Samples.callback_endpoint) Samples.one_task
           "<h2>Pool tables</h2><p>...</p>" None (Some 9%Z)
           (mkPostResult (Some (mkBlogPost (Some "error") None None None)) None)
           (mkBlogPost (Some "error") None None None)).
  - apply sample_claimed. by left.
  - reflexivity.
  - reflexivity.
  - reflexivity.
  - discriminate.
  - reflexivity.
  - reflexivity.
  - reflexivity.
  - reflexivity.
  - apply (sample_delivered true _ _ "https://example.com/wp-json/acb/v1/callback").
    discriminate.
Defined.

(** X16. A text that the generation stage returned together with an error marker
    is published like any other: when the post is created and the callback
    delivered, the task ends 'completed' with no error stored, and the marker
    is dropped. *)
Theorem degraded_text_completes env task payload (tbl : Table) c marker :
  claimed env task payload tbl → init_services env = InitOk →
  generate_content env = Returned (Some c, Some marker) →
  pipeline_succeeded env task → ¬ category_update_failed env →
  callback_delivered env payload →
  last (process_single_task env task tbl).2
  = Some (EvUpdateTaskStatus (t_task_id task) completed None None).
Proof.
  intros Hcl Hinit _ Hok Hcat Hdel.
  rewrite (final_write_delivered _ _ _ _ Hcl Hinit Hdel).
  destruct (run_task_succeeded env task payload
              (initial_callback_payload (t_task_id task) payload) Hok) as (_ & Hnone & _).
  rewrite (Hnone Hcat). f_equal. f_equal. by apply run_task_completed.
Qed.

Lemma degraded_text_completes_witness :
  last (process_single_task
          (Samples.env_with true
             (Returned (Some "<h2>Pool tables</h2><p>...</p>",
                        Some "Word count 1000 is less than 90% of target 1500"))
             (Returned Samples.published) (Response 200))
          (Samples.task_with (Some (Samples.full_payload Samples.callback_endpoint)))
          Samples.one_task).2
  = Some (EvUpdateTaskStatus "task-1" completed None None).
Proof.
  apply (degraded_text_completes
           (Samples.env_with true
              (Returned (Some "<h2>Pool tables</h2><p>...</p>",
                         Some "Word count 1000 is less than 90% of target 1500"))
              (Returned Samples.published) (Response 200))
           (Samples.task_with (Some (Samples.full_payload Samples.callback_endpoint)))
           (Samples.full_payload Samples.callback_endpoint) Samples.one_task
           "<h2>Pool tables</h2><p>...</p>"
           "Word count 1000 is less than 90% of target 1500").
  - apply sample_claimed. by left.
  - reflexivity.
  - reflexivity.
  - split; [done|]. do 5 eexists. repeat split; simpl; done.
  - intros (post & cu & Hp & Hcu & Hst). simpl in Hp. simplify_eq. simpl in Hcu.
    by simplify_eq.
  - apply (sample_delivered true _ _ "https://example.com/wp-json/acb/v1/callback").
    discriminate.
Defined.

(** *** The worker loop *)

Lemma same_tasks_refl (tbl : Table) : same_tasks tbl tbl.
Proof. split; [done|]. intros id r' Hr'. by exists r'. Qed.

Lemma same_tasks_trans (t1 t2 t3 : Table) :
  same_tasks t1 t2 → same_tasks t2 t3 → same_tasks t1 t3.
Proof.
  intros [Hd1 Hr1] [Hd2 Hr2]. split; [congruence|].
  intros id r3 Hl3. destruct (Hr2 id r3 Hl3) as (r2 & Hl2 & ? & ? & ?).
  destruct (Hr1 id r2 Hl2) as (r1 & Hl1 & ? & ? & ?). exists r1. split; [done|].
  repeat split; congruence.
Qed.

Lemma touches_only_same_tasks id (tbl tbl' : Table) :
  touches_only id tbl tbl' → same_tasks tbl tbl'.
Proof.
  intros (Hd & Ho & Hr). split; [done|]. intros id' r' Hr'.
  destruct (decide (id' = id)) as [-> | Hne]; [by apply Hr|].
  exists r'. rewrite <- (Ho id' Hne). done.
Qed.

(** What the fetch hands out is a row of the table that satisfies the WHERE
    clause. *)
Lemma fetched_task_eligible json_loads cfg conn limit (tbl : Table) task rest :
  get_pending_tasks json_loads cfg conn limit tbl = task :: rest →
  ∃ r, tbl !! t_task_id task = Some r
       ∧ eligible (default 3%Z (max_task_retries cfg)) r
       ∧ task = row_to_task json_loads (t_task_id task, r).
Proof.
  unfold get_pending_tasks, select_rows. destruct conn; [|done].
  destruct (limit <? 0)%Z; [done|].
  intros Heq. apply fmap_cons_inv in Heq as ([k r] & l & -> & _ & Htake).
  assert (Hin : (k, r) ∈ candidates (default 3%Z (max_task_retries cfg)) tbl).
  { apply (subseteq_take (Z.to_nat limit)). rewrite Htake. apply elem_of_cons. by left. }
  apply elem_of_candidates in Hin as [Hr Hel]. by exists r.
Qed.

Lemma worker_cycle_same_tasks json_loads cfg fetch env (tbl : Table) :
  same_tasks tbl (worker_cycle json_loads cfg fetch env tbl).1.
Proof.
  unfold worker_cycle. destruct (get_pending_tasks _ _ _ _ tbl) as [|task rest].
  - apply same_tasks_refl.
  - eapply touches_only_same_tasks, process_single_task_touches.
Qed.

Lemma worker_cycle_leaves_ineligible json_loads cfg fetch env (tbl : Table) id r :
  tbl !! id = Some r → ¬ eligible (default 3%Z (max_task_retries cfg)) r →
  (worker_cycle json_loads cfg fetch env tbl).1 !! id = Some r.
Proof.
  intros Hr Hno. unfold worker_cycle.
  destruct (get_pending_tasks _ _ _ _ tbl) as [|task rest] eqn:Hfetch; [done|].
  destruct (fetched_task_eligible _ _ _ _ _ _ _ Hfetch) as (r0 & Hr0 & Hel & _).
  destruct (process_single_task_touches env task tbl) as (_ & Ho & _).
  rewrite Ho; [done|]. intros ->. by simplify_eq.
Qed.

(** X17. However the worker loop runs, it neither creates nor deletes a task, and
    every task keeps the type, the payload and the creation time it was
    queued with. *)
Theorem run_worker_loop_keeps_tasks json_loads cfg cycles (tbl : Table) :
  dom (run_worker_loop json_loads cfg cycles tbl).1 = dom tbl
  ∧ ∀ id r', (run_worker_loop json_loads cfg cycles tbl).1 !! id = Some r' →
      ∃ r, tbl !! id = Some r ∧ task_type r' = task_type r ∧ payload r' = payload r
           ∧ created_at r' = created_at r.
Proof.
  change (same_tasks tbl (run_worker_loop json_loads cfg cycles tbl).1).
  revert tbl. induction cycles as [|[fetch env] cycles IH]; intros tbl;
    [apply same_tasks_refl|].
  cbn [run_worker_loop].
  pose proof (worker_cycle_same_tasks json_loads cfg fetch env tbl) as H1.
  destruct (worker_cycle json_loads cfg fetch env tbl) as [tbl1 evs]. simpl in H1.
  specialize (IH tbl1).
  destruct (run_worker_loop json_loads cfg cycles tbl1) as [tbl2 evs']. simpl in *.
  by eapply same_tasks_trans.
Qed.

Lemma run_worker_loop_skips json_loads cfg cycles (tbl : Table) id r :
  tbl !! id = Some r → ¬ eligible (default 3%Z (max_task_retries cfg)) r →
  (run_worker_loop json_loads cfg cycles tbl).1 !! id = Some r.
Proof.
  revert tbl. induction cycles as [|[fetch env] cycles IH]; intros tbl Hr Hno; [done|].
  cbn [run_worker_loop].
  pose proof (worker_cycle_leaves_ineligible json_loads cfg fetch env tbl id r Hr Hno) as H1.
  destruct (worker_cycle json_loads cfg fetch env tbl) as [tbl1 evs]. simpl in H1.
  specialize (IH tbl1 H1 Hno).
  by destruct (run_worker_loop json_loads cfg cycles tbl1) as [tbl2 evs'].
Qed.

(** X18. A row that the claim query does not select ('completed', 'processing',
    'skip', or 'error' with its attempts used up) is never touched by the
    worker loop, however long it runs: in particular a task left in
    'processing' stays there. *)
Theorem run_worker_loop_leaves_ineligible json_loads cfg cycles (tbl : Table) id r :
  tbl !! id = Some r → ¬ eligible (default 3%Z (max_task_retries cfg)) r →
  (run_worker_loop json_loads cfg cycles tbl).1 !! id = Some r.
Proof. apply run_worker_loop_skips. Qed.

Lemma run_worker_loop_leaves_ineligible_witness :
  (run_worker_loop (λ _, None) WORKER_CONFIG [(true, Samples.happy_env); (true, Samples.happy_env)]
     Samples.three_tasks).1 !! "task-2"
  = Some {| task_type := "generate_content"; payload := Some "{...}"; status := error;
            created_at := 90; updated_at := 95; attempts := 3; last_error := Some "boom" |}.
Proof.
  apply (run_worker_loop_leaves_ineligible (λ _, None) WORKER_CONFIG
           [(true, Samples.happy_env); (true, Samples.happy_env)] Samples.three_tasks "task-2").
  - reflexivity.
  - intros [[H | [_ H]] _]; simpl in H; [discriminate | lia].
Defined.

(** X19. The retry limit holds for a task that passes validation: an execution
    that claims it with its last allowed attempt leaves it 'completed' or
    'error' with the attempt counted, and from then on no cycle of the worker
    loop touches it. *)
Theorem last_attempt_is_final json_loads cfg env task payload (tbl : Table) :
  claimed env task payload tbl → db_conn env 1 = true →
  (default 3 (max_task_retries cfg) ≤ t_attempts task + 1)%Z →
  ∃ r', (process_single_task env task tbl).1 !! t_task_id task = Some r'
        ∧ (status r' = completed ∨ status r' = error)
        ∧ attempts r' = (t_attempts task + 1)%Z
        ∧ ∀ cycles,
            (run_worker_loop json_loads cfg cycles (process_single_task env task tbl).1).1
            !! t_task_id task = Some r'.
Proof.
  intros Hcl Hconn Hmax.
  destruct (process_single_task_after_claim _ _ _ _ Hcl) as (r & tbl1 & Hr & Hr1 & ->).
  simpl.
  assert (Hrow : ∃ st err, (after_claim env task payload tbl1).1 !! t_task_id task
                   = Some (set_row (db_now env 1) st None err
                             (set_row (db_now env 0) processing
                                (Some (t_attempts task + 1)%Z) None r))
                   ∧ (st = completed ∨ st = error)).
  { unfold after_claim, write_status.
    destruct (init_services env); simpl;
      rewrite (update_task_status_lookup _ _ _ _ _ _ _ _ Hr1), Hconn;
      eexists _, _; (split; [done|]); [apply finish_status | by right..]. }
  destruct Hrow as (st & err & Hrow & Hst).
  eexists. split; [exact Hrow|]. split; [done|]. split; [done|].
  intros cycles. apply run_worker_loop_skips; [done|].
  intros [[H | [_ H]] _]; simpl in H; [destruct Hst; congruence | lia].
Qed.

Lemma last_attempt_is_final_witness :
  ∃ r', (process_single_task Samples.happy_env
           (mkTask "task-1" "generate_content"
              (Some (Samples.full_payload Samples.callback_endpoint)) 2)
           Samples.one_task).1 !! "task-1" = Some r'
        ∧ (status r' = completed ∨ status r' = error)
        ∧ attempts r' = (2 + 1)%Z
        ∧ ∀ cycles,
            (run_worker_loop (λ _, None) WORKER_CONFIG cycles
               (process_single_task Samples.happy_env
                  (mkTask "task-1" "generate_content"
                     (Some (Samples.full_payload Samples.callback_endpoint)) 2)
                  Samples.one_task).1).1 !! "task-1" = Some r'.
Proof.
  apply (last_attempt_is_final (λ _, None) WORKER_CONFIG Samples.happy_env
           (mkTask "task-1" "generate_content"
              (Some (Samples.full_payload Samples.callback_endpoint)) 2)
           (Samples.full_payload Samples.callback_endpoint) Samples.one_task).
  - repeat split; vm_compute; reflexivity.
  - reflexivity.
  - simpl. lia.
Defined.

End WorkerMore.

(** * Further properties of the text generation stage *)

Module WorkflowMore.
Import Workflow WorkflowFacts.





End WorkflowMore.

(** * Properties of the webhook *)

Module AppFacts.
Import Database Worker App DatabaseFacts WorkerFacts.

Lemma task_payload_lookup (d : Payload) k :
  k ∈ required_payload_keys → task_payload d !! k = Some (item d k).
Proof.
  unfold required_payload_keys, task_payload. intros Hk.
  repeat (apply elem_of_cons in Hk as [-> | Hk]; [by simplify_map_eq|]).
  by apply elem_of_nil in Hk.
Qed.

Lemma task_payload_complete (d : Payload) : missing_keys (task_payload d) = [].
Proof.
  destruct (missing_keys (task_payload d)) as [|k l] eqn:E; [done|].
  assert (Hin : k ∈ missing_keys (task_payload d)) by (rewrite E; left).
  apply list_elem_of_filter in Hin as [Hnone Hk].
  by rewrite (task_payload_lookup d k Hk) in Hnone.
Qed.

Lemma task_payload_dom (d : Payload) : dom (task_payload d) = list_to_set required_fields.
Proof. unfold task_payload, required_fields. rewrite !dom_insert_L, dom_empty_L. set_solver. Qed.

Lemma missing_fields_object (d : Payload) :
  missing_fields (JObject d) = Some (filter (λ field, d !! field = None) required_fields).
Proof.
  unfold missing_fields. simpl. f_equal. apply list_filter_iff. intros k. simpl.
  split.
  - intros [= H]. apply bool_decide_eq_false in H. by apply eq_None_not_Some.
  - intros H. f_equal. apply bool_decide_eq_false. by apply eq_None_not_Some.
Qed.

Lemma missing_fields_nil (d : Payload) k :
  missing_fields (JObject d) = Some [] → k ∈ required_fields → is_Some (d !! k).
Proof.
  rewrite missing_fields_object. intros [= Hnil] Hk.
  destruct (d !! k) eqn:E; [by eexists|].
  assert (Hin : k ∈ filter (λ field, d !! field = None) required_fields)
    by (by apply list_elem_of_filter).
  rewrite Hnil in Hin. by apply elem_of_nil in Hin.
Qed.

(** The cases of [trigger_generation]: the store is the one it was, or the
    request was let in with a well-formed body and its row was inserted. *)
Lemma trigger_generation_cases secret json_dumps conn now task_id request (tbl : Table) :
  ((trigger_generation secret json_dumps conn now task_id request tbl).1 = tbl
   ∧ ∀ id, ¬ queued (trigger_generation secret json_dumps conn now task_id request tbl).2 id)
  ∨ (is_request_authenticated secret request = true
     ∧ is_json request = true
     ∧ ∃ d, get_json request = Some (JObject d)
          ∧ (∀ k, k ∈ required_fields → is_Some (d !! k))
          ∧ conn = true ∧ tbl !! task_id = None
          ∧ trigger_generation secret json_dumps conn now task_id request tbl
            = (<[task_id := {| task_type := "generate_content";
                               payload := Some (json_dumps (task_payload d));
                               status := pending; created_at := now; updated_at := now;
                               attempts := 0; last_error := None |}]> tbl,
               Jsonify 202 "queued" None (Some task_id))).
Proof.
  unfold trigger_generation, queued.
  destruct (is_request_authenticated secret request) eqn:Ea; simpl; [|by left].
  destruct (is_json request) eqn:Ej; simpl; [|by left].
  destruct (get_json request) as [data|] eqn:Eg; [|by left].
  destruct (missing_fields data) as [[|f fs]|] eqn:Em; [| by left | by left].
  destruct data as [d|l|v]; [| by left | by left].
  unfold add_task. destruct conn; [|by left].
  destruct (tbl !! task_id) eqn:Et; [by left|].
  right. split; [done|]. split; [done|]. exists d.
  split; [done|]. split; [intros k; by apply missing_fields_nil|]. done.
Qed.

Lemma is_request_authenticated_true secret request :
  is_request_authenticated secret request = true →
  x_plugin_token request = secret ∧ truthy_str secret = true.
Proof.
  unfold is_request_authenticated.
  destruct (truthy_str (x_plugin_token request)) eqn:Et; simpl; [|done].
  intros H. apply bool_decide_eq_true in H. by rewrite <- H.
Qed.

(** X21. A request that is answered with 202 carried the configured token (which
    is not empty), was JSON, and its body was an object with the five
    required fields; the store gained exactly one row, under the id the
    reply names: 'pending', no attempt made, no error, and as payload the
    five required entries of the body and nothing else of it. *)
Theorem queued_request_stored secret json_dumps conn now task_id request (tbl : Table) id :
  queued (trigger_generation secret json_dumps conn now task_id request tbl).2 id →
  x_plugin_token request = secret ∧ truthy_str secret = true
  ∧ is_json request = true
  ∧ ∃ d, get_json request = Some (JObject d)
       ∧ (∀ k, k ∈ required_fields → task_payload d !! k = d !! k)
       ∧ dom (task_payload d) = list_to_set required_fields
       ∧ id = task_id ∧ tbl !! id = None
       ∧ (trigger_generation secret json_dumps conn now task_id request tbl).1
         = <[id := {| task_type := "generate_content";
                      payload := Some (json_dumps (task_payload d));
                      status := pending; created_at := now; updated_at := now;
                      attempts := 0; last_error := None |}]> tbl.
Proof.
  intros Hq.
  destruct (trigger_generation_cases secret json_dumps conn now task_id request tbl)
    as [[_ Hno] | (Ha & Hj & d & Hg & Hfields & Hc & Ht & Heq)].
  { by destruct (Hno id). }
  rewrite Heq in Hq. unfold queued in Hq. simpl in Hq. injection Hq as <-.
  apply is_request_authenticated_true in Ha as [Htok Hs].
  split; [done|]. split; [done|]. split; [done|]. exists d.
  split; [done|]. split.
  { intros k Hk. rewrite (task_payload_lookup d k Hk).
    destruct (Hfields k Hk) as [v Hv]. unfold item. by rewrite Hv. }
  split; [apply task_payload_dom|]. split; [done|]. split; [done|].
  by rewrite Heq.
Qed.

Lemma queued_request_stored_witness :
  x_plugin_token StageSamples.good_request = StageSamples.secret
  ∧ truthy_str StageSamples.secret = true
  ∧ is_json StageSamples.good_request = true
  ∧ ∃ d, get_json StageSamples.good_request = Some (JObject d)
       ∧ (∀ k, k ∈ required_fields → task_payload d !! k = d !! k)
       ∧ dom (task_payload d) = list_to_set required_fields
       ∧ "task-9" = "task-9" ∧ Samples.one_task !! "task-9" = None
       ∧ (trigger_generation StageSamples.secret StageSamples.dumps true 200 "task-9"
            StageSamples.good_request Samples.one_task).1
         = <["task-9" := {| task_type := "generate_content";
                            payload := Some (StageSamples.dumps (task_payload d));
                            status := pending; created_at := 200; updated_at := 200;
                            attempts := 0; last_error := None |}]> Samples.one_task.
Proof.
  apply (queued_request_stored StageSamples.secret StageSamples.dumps true 200 "task-9"
           StageSamples.good_request Samples.one_task "task-9").
  vm_compute. reflexivity.
Defined.

(** X22. A request that does not carry the configured token is answered with 403,
    whatever its body; and whenever the answer is not the 202 of a queued
    task (a refused, malformed or incomplete request, a body that is no
    object, a store that cannot be reached) the store is left as it was. *)
Theorem rejected_request_leaves_store secret json_dumps conn now task_id request
    (tbl : Table) :
  (x_plugin_token request ≠ secret →
   trigger_generation secret json_dumps conn now task_id request tbl
   = (tbl, Jsonify 403 "error" (Some "Authentication failed") None))
  ∧ ((∀ id, ¬ queued (trigger_generation secret json_dumps conn now task_id request tbl).2 id) →
     (trigger_generation secret json_dumps conn now task_id request tbl).1 = tbl).
Proof.
  split.
  - intros Hne. unfold trigger_generation.
    destruct (is_request_authenticated secret request) eqn:Ea; [|done].
    by apply is_request_authenticated_true in Ea as [? _].
  - intros Hno.
    destruct (trigger_generation_cases secret json_dumps conn now task_id request tbl)
      as [[Heq _] | (_ & _ & d & _ & _ & _ & _ & Heq)]; [done|].
    destruct (Hno task_id). by rewrite Heq.
Qed.

(** X23. A task queued by the webhook is one the worker accepts: when the stored
    JSON text reads back as the payload that was written, the fetched task
    has type 'generate_content' and a payload that passes the worker's
    validation, it is handed out by every fetch whose limit covers the queue,
    and processing it starts with the claim, not with a validation error. *)
Theorem queued_task_passes_validation secret json_dumps json_loads cfg conn now task_id
    request (tbl : Table) id limit env :
  queued (trigger_generation secret json_dumps conn now task_id request tbl).2 id →
  (∀ d, get_json request = Some (JObject d) →
        json_dumps (task_payload d) ≠ ""
        ∧ json_loads (json_dumps (task_payload d)) = Some (task_payload d)) →
  (Z.of_nat (size tbl) < limit)%Z →
  ∃ task,
    t_task_id task = id ∧ t_task_type task = "generate_content" ∧ t_attempts task = 0%Z
    ∧ ¬ fails_validation (t_payload task)
    ∧ task ∈ get_pending_tasks json_loads cfg true limit
               (trigger_generation secret json_dumps conn now task_id request tbl).1
    ∧ head (process_single_task env task
              (trigger_generation secret json_dumps conn now task_id request tbl).1).2
      = Some (EvMarkTaskProcessing id 0).
Proof.
  intros Hq Hjson Hlimit.
  destruct (trigger_generation_cases secret json_dumps conn now task_id request tbl)
    as [[_ Hno] | (Ha & Hj & d & Hg & Hfields & Hc & Ht & Heq)].
  { by destruct (Hno id). }
  rewrite Heq in Hq |- *. unfold queued in Hq. simpl in Hq. injection Hq as <-. simpl.
  set (r := {| task_type := "generate_content"; payload := Some (json_dumps (task_payload d));
               status := pending; created_at := now; updated_at := now;
               attempts := 0; last_error := None |}).
  destruct (Hjson d Hg) as [Hne Hload].
  assert (Hp : t_payload (row_to_task json_loads (task_id, r)) = Some (task_payload d)).
  { simpl. apply String.eqb_neq in Hne. rewrite Hne, Hload. done. }
  exists (row_to_task json_loads (task_id, r)).
  split; [done|]. split; [done|]. split; [done|]. split.
  { rewrite Hp. simpl. intros H. by apply H, task_payload_complete. }
  split.
  { apply get_pending_tasks_elem.
    - apply lookup_insert_eq.
    - split; [by left | done].
    - rewrite map_size_insert_None by done. lia. }
  unfold process_single_task. rewrite Hp.
  pose proof (missing_keys_nil_nonempty (task_payload d) (task_payload_complete d)) as Hnon.
  rewrite bool_decide_eq_false_2 by done.
  rewrite task_payload_complete. simpl.
  destruct (mark_task_processing _ _ _ _ _) as [tbl1 marked].
  destruct marked; simpl; [|done].
  by destruct (after_claim _ _ _ _).
Qed.

Lemma queued_task_passes_validation_witness :
  ∃ task,
    t_task_id task = "task-9" ∧ t_task_type task = "generate_content" ∧ t_attempts task = 0%Z
    ∧ ¬ fails_validation (t_payload task)
    ∧ task ∈ get_pending_tasks StageSamples.loads WORKER_CONFIG true 5
               (trigger_generation StageSamples.secret StageSamples.dumps true 200 "task-9"
                  StageSamples.good_request Samples.one_task).1
    ∧ head (process_single_task Samples.happy_env task
              (trigger_generation StageSamples.secret StageSamples.dumps true 200 "task-9"
                 StageSamples.good_request Samples.one_task).1).2
      = Some (EvMarkTaskProcessing "task-9" 0).
Proof.
  apply (queued_task_passes_validation StageSamples.secret StageSamples.dumps
           StageSamples.loads WORKER_CONFIG true 200 "task-9" StageSamples.good_request
           Samples.one_task "task-9" 5 Samples.happy_env).
  - vm_compute. reflexivity.
  - intros d [= <-]. split; [discriminate | reflexivity].
  - vm_compute. reflexivity.
Defined.

End AppFacts.

(** * Properties of the image and publishing stages *)

Module StagesFacts.
Import Database Worker Notions PyStr Wordpress Imagen WorkerFacts WorkerMore Stages.

(** *** The requests *)

Lemma make_request_failed wp http : request_failed http → _make_request wp http = None.
Proof.
  unfold _make_request. destruct (truthy_str (api_url_base wp)); simpl; [|done].
  destruct http as [code body| |]; simpl; [|done|done]. by intros ->.
Qed.

Lemma make_request_id wp http id link :
  _make_request wp http = Some (WpObject (Some id) link) →
  truthy_str (api_url_base wp) = true ∧ answered_with_id http id.
Proof.
  unfold _make_request, answered_with_id.
  destruct (truthy_str (api_url_base wp)); simpl; [|done].
  destruct http as [code body| |]; [|done|done].
  destruct (raise_for_status code) eqn:E; [done|].
  destruct body as [|j|t]; simpl; intros H; simplify_eq. eauto.
Qed.

Lemma make_request_answered wp http id :
  truthy_str (api_url_base wp) = true → answered_with_id http id →
  ∃ link, _make_request wp http = Some (WpObject (Some id) link).
Proof.
  intros Hb (code & link & -> & Hok). exists link. unfold _make_request.
  by rewrite Hb, Hok.
Qed.

(** *** The image stage *)

(** X24. When the image stage answers with an attachment id, both services were
    there, the keyword is a str, the image client gave a first image that is
    not empty, the upload was the last call, made after the image calls, and
    the id is the one of the JSON object the upload request was answered
    with. *)
Theorem featured_image_id_provenance self w keyword snippet id :
  (generate_and_upload_featured_image self w keyword snippet).1 = Some id →
  ∃ client wp k b img imgs paths,
    imagen_client self = Some client ∧ wp_service self = Some wp ∧ keyword = VStr k
    ∧ generate_image_bytes client (sdk_generate w) (rest_generate w)
      = (Returned ((b :: img) :: imgs), paths)
    ∧ (generate_and_upload_featured_image self w keyword snippet).2
      = ((λ p, CallImagen p (_build_image_prompt keyword snippet)) <$> paths)
        ++ [CallUploadImage ("Featured image for " +:+ k) (spaces_to_dashes k +:+ ".jpg")]
    ∧ truthy_str (api_url_base wp) = true
    ∧ answered_with_id (upload_http w) id.
Proof.
  unfold generate_and_upload_featured_image.
  destruct (imagen_client self) as [client|]; [|done].
  destruct (wp_service self) as [wp|]; [|done].
  destruct (generate_image_bytes client (sdk_generate w) (rest_generate w))
    as [images paths] eqn:Eg.
  destruct images as [[|[|b img] imgs]|e]; try done.
  destruct keyword as [| | |k]; try done. simpl.
  unfold upload_image.
  destruct (_make_request wp (upload_http w)) as [[i l|n|v]|] eqn:Er; try done.
  intros ->. apply make_request_id in Er as [Hb Ha].
  exists client, wp, k, b, img, imgs, paths. done.
Qed.

Lemma featured_image_id_provenance_witness :
  ∃ client wp k b img imgs paths,
    imagen_client StageSamples.workflow_service = Some client
    ∧ wp_service StageSamples.workflow_service = Some wp ∧ VStr "pool tables" = VStr k
    ∧ generate_image_bytes client (sdk_generate StageSamples.image_world)
        (rest_generate StageSamples.image_world)
      = (Returned ((b :: img) :: imgs), paths)
    ∧ (generate_and_upload_featured_image StageSamples.workflow_service
         StageSamples.image_world (VStr "pool tables") "<h2>Pool tables</h2>").2
      = ((λ p, CallImagen p (_build_image_prompt (VStr "pool tables") "<h2>Pool tables</h2>"))
           <$> paths)
        ++ [CallUploadImage ("Featured image for " +:+ k) (spaces_to_dashes k +:+ ".jpg")]
    ∧ truthy_str (api_url_base wp) = true
    ∧ answered_with_id (upload_http StageSamples.image_world) 5.
Proof.
  apply (featured_image_id_provenance StageSamples.workflow_service StageSamples.image_world
           (VStr "pool tables") "<h2>Pool tables</h2>" 5).
  vm_compute. reflexivity.
Defined.

(** X25. Whatever the result, an upload is requested at most once, as the last
    call, and only when the image client gave a first image that is not
    empty; the REST endpoint is asked only when the SDK is missing or its
    call raised, and then after it. *)
Theorem image_stage_calls self w keyword snippet :
  let calls := (generate_and_upload_featured_image self w keyword snippet).2 in
  (∀ i title filename, calls !! i = Some (CallUploadImage title filename) →
     S i = length calls
     ∧ ∃ client b img imgs paths,
         imagen_client self = Some client
         ∧ generate_image_bytes client (sdk_generate w) (rest_generate w)
           = (Returned ((b :: img) :: imgs), paths))
  ∧ (∀ i prompt, calls !! i = Some (CallImagen Rest prompt) →
       ∃ client, imagen_client self = Some client
         ∧ (use_sdk client = false ∧ i = 0
            ∨ use_sdk client = true ∧ i = 1 ∧ ∃ e, sdk_generate w = Raised e)).
Proof.
  unfold generate_and_upload_featured_image.
  destruct (imagen_client self) as [client|]; [|by split; intros i t].
  destruct (wp_service self) as [wp|]; [|by split; intros i t].
  assert (Hrest : ∀ i prompt,
    ((λ p, CallImagen p (_build_image_prompt keyword snippet))
       <$> (generate_image_bytes client (sdk_generate w) (rest_generate w)).2) !! i
    = Some (CallImagen Rest prompt) →
    use_sdk client = false ∧ i = 0
    ∨ use_sdk client = true ∧ i = 1 ∧ ∃ e, sdk_generate w = Raised e).
  { intros i prompt. unfold generate_image_bytes.
    destruct (use_sdk client); [|destruct i as [|[|i]]; simpl; intros [=]; by left].
    destruct (sdk_generate w) as [l|e]; destruct i as [|[|i]]; simpl; intros [=].
    right. eauto. }
  assert (Himg : ∀ i t f,
    ((λ p, CallImagen p (_build_image_prompt keyword snippet))
       <$> (generate_image_bytes client (sdk_generate w) (rest_generate w)).2) !! i
    ≠ Some (CallUploadImage t f)).
  { intros i t f H. apply list_lookup_fmap_Some in H as (p & Hp & Hq); by simplify_eq. }
  destruct (generate_image_bytes client (sdk_generate w) (rest_generate w))
    as [images paths] eqn:Eg.
  simpl in Hrest, Himg.
  destruct images as [[|[|b img] imgs]|e]; simpl.
  1,2,4: split; [intros i t f H; by destruct (Himg i t f) | intros i p H; eauto].
  destruct keyword as [| | |k]; simpl.
  1,2,3: split; [intros i t f H; by destruct (Himg i t f) | intros i p H; eauto].
  split.
  - intros i t f H. apply lookup_app_Some in H as [H | [Hlen H]].
    { by destruct (Himg i t f). }
    rewrite length_app. simpl.
    destruct (i - length ((λ p, CallImagen p (_build_image_prompt (VStr k) snippet)) <$> paths))
      as [|n] eqn:En; [|done].
    split; [lia|]. by exists client, b, img, imgs, paths.
  - intros i p H. exists client. apply lookup_app_Some in H as [H | [Hlen H]]; [eauto|].
    destruct (i - _) as [|n]; simplify_eq/=.
Qed.

(** *** The publishing stage: the single post flow *)

(** Creating the post when no category draft was saved. *)
Lemma create_blog_post_plain wp w keyword content img :
  ∃ bp calls,
    create_blog_post wp w keyword not_applicable "" content img
    = (mkFinalResult not_applicable bp, calls)
    ∧ (∀ c, c ∈ calls → ∃ title media, c = CallCreatePost title content media "")
    ∧ length calls ≤ 1
    ∧ (bpr_status bp = "success" ∨ bpr_status bp = "error")
    ∧ (bpr_status bp = "success" ↔
       ∃ k id, keyword = VStr k ∧ truthy_str (api_url_base wp) = true
               ∧ answered_with_id (create_post_http w) id ∧ id ≠ 0%Z
               ∧ bpr_id bp = Some id)
    ∧ (request_failed (create_post_http w) → (∃ k, keyword = VStr k) →
       bpr_status bp = "error" ∧ bpr_error bp = None).
Proof.
  unfold create_blog_post, not_applicable.
  destruct keyword as [| | |k]; simpl.
  1,2,3: (eexists _, _; split; [done|]; split; [by intros c Hc; apply elem_of_nil in Hc|];
          split; [simpl; lia|]; split; [by right|]; split;
          [split; [done | by intros (k' & id & [=] & _)] | by intros _ [k' [=]]]).
  unfold create_post. simpl.
  destruct (_make_request wp (create_post_http w)) as [[[id|] link|n|v]|] eqn:Er; simpl.
  - destruct (id =? 0)%Z eqn:Eid.
    + eexists _, _. split; [done|]. split.
      { intros c Hc. apply list_elem_of_singleton in Hc as ->. eauto. }
      split; [simpl; lia|]. split; [by right|]. split.
      * split; [done|]. intros (k' & id' & _ & Hb & Ha & Hne & _).
        destruct (make_request_answered wp _ id' Hb Ha) as [l Hr].
        rewrite Er in Hr. simplify_eq. apply Z.eqb_eq in Eid. done.
      * intros Hf _. by rewrite (make_request_failed wp _ Hf) in Er.
    + eexists _, _. split; [done|]. split.
      { intros c Hc. rewrite ?app_nil_r in Hc. apply list_elem_of_singleton in Hc as ->. eauto. }
      split; [simpl; lia|]. split; [by left|]. split.
      * split; [|done]. intros _. apply make_request_id in Er as [Hb Ha].
        exists k, id. apply Z.eqb_neq in Eid. done.
      * intros Hf _. by rewrite (make_request_failed wp _ Hf) in Er.
  - eexists _, _. split; [done|]. split.
    { intros c Hc. apply list_elem_of_singleton in Hc as ->. eauto. }
    split; [simpl; lia|]. split; [by right|]. split.
    + split; [done|]. intros (k' & id' & _ & Hb & Ha & _).
      destruct (make_request_answered wp _ id' Hb Ha) as [l Hr]. rewrite Er in Hr. done.
    + intros Hf _. by rewrite (make_request_failed wp _ Hf) in Er.
  - destruct (n =? 0)%nat; (eexists _, _; split; [done|]; split;
      [intros c Hc; apply list_elem_of_singleton in Hc as ->; eauto|];
      split; [simpl; lia|]; split; [by right|]; split;
      [split; [done|]; intros (k' & id' & _ & Hb & Ha & _);
       destruct (make_request_answered wp _ id' Hb Ha) as [l Hr]; rewrite Er in Hr; done
      | intros Hf _; by rewrite (make_request_failed wp _ Hf) in Er]).
  - destruct (truthy v); (eexists _, _; split; [done|]; split;
      [intros c Hc; apply list_elem_of_singleton in Hc as ->; eauto|];
      split; [simpl; lia|]; split; [by right|]; split;
      [split; [done|]; intros (k' & id' & _ & Hb & Ha & _);
       destruct (make_request_answered wp _ id' Hb Ha) as [l Hr]; rewrite Er in Hr; done
      | intros Hf _; by rewrite (make_request_failed wp _ Hf) in Er]).
  - eexists _, _. split; [done|]. split.
    { intros c Hc. apply list_elem_of_singleton in Hc as ->. eauto. }
    split; [simpl; lia|]. split; [by right|]. split.
    + split; [done|]. intros (k' & id' & _ & Hb & Ha & _).
      destruct (make_request_answered wp _ id' Hb Ha) as [l Hr]. rewrite Er in Hr. done.
    + done.
Qed.

(** The publishing stage on a brief that does not ask for dual content. *)
Lemma post_single int_of_str self wp w brief text img :
  wp_service self = Some wp → ¬ is_dual brief → fields brief ≠ ∅ →
  post_content_to_wordpress int_of_str self w brief (ContentStr text) img
  = (Returned (Some (create_blog_post wp w (keyword_of brief) not_applicable ""
                       (Some text) img).1),
     (create_blog_post wp w (keyword_of brief) not_applicable "" (Some text) img).2).
Proof.
  intros Hwp Hdual Hne. unfold post_content_to_wordpress, is_dual in *. rewrite Hwp.
  rewrite (bool_decide_eq_false_2 (fields brief = ∅)) by done. simpl.
  rewrite bool_decide_eq_false_2.
  2: { destruct (fields brief !! "content_recommendation") as [v|]; simpl; congruence. }
  fold not_applicable. fold (keyword_of brief).
  by destruct (create_blog_post wp w (keyword_of brief) not_applicable "" (Some text) img).
Qed.

(** X26. On a brief that does not ask for dual content (the worker's brief is
    one) and a text, the publishing stage answers with a result whose
    category part is 'not_applicable'; it makes no other call than at most
    one [create_post], with the whole text as content; and the blog part is
    'success' exactly when the keyword is a str and the request was
    answered, outside the error codes, with a JSON object that carries an id
    other than 0, and 'error' otherwise. *)
Theorem single_post_flow int_of_str self wp w brief text img :
  wp_service self = Some wp → ¬ is_dual brief → fields brief ≠ ∅ →
  ∃ r calls,
    post_content_to_wordpress int_of_str self w brief (ContentStr text) img
    = (Returned (Some r), calls)
    ∧ fr_category_update r = not_applicable
    ∧ (∀ c, c ∈ calls → ∃ title media, c = CallCreatePost title (Some text) media "")
    ∧ length calls ≤ 1
    ∧ (bpr_status (fr_blog_post r) = "success" ∨ bpr_status (fr_blog_post r) = "error")
    ∧ (bpr_status (fr_blog_post r) = "success" ↔
       ∃ k id, keyword_of brief = VStr k ∧ truthy_str (api_url_base wp) = true
               ∧ answered_with_id (create_post_http w) id ∧ id ≠ 0%Z
               ∧ bpr_id (fr_blog_post r) = Some id).
Proof.
  intros Hwp Hd Hne. rewrite (post_single _ _ _ _ _ _ _ Hwp Hd Hne).
  destruct (create_blog_post_plain wp w (keyword_of brief) (Some text) img)
    as (bp & calls & -> & H1 & H2 & H3 & H4 & _).
  exists (mkFinalResult not_applicable bp), calls. done.
Qed.

Lemma mock_brief_single (payload : Payload) :
  ¬ is_dual (mock_brief payload) ∧ fields (mock_brief payload) ≠ ∅
  ∧ keyword_of (mock_brief payload) = item payload "keyword".
Proof.
  unfold is_dual, keyword_of, mock_brief. simpl. split; [by simplify_map_eq|].
  split; [|by simplify_map_eq].
  intros H. apply (f_equal (λ m : Payload, m !! "keyword")) in H. by simplify_map_eq.
Qed.

Lemma single_post_flow_witness :
  ∃ r calls,
    post_content_to_wordpress StageSamples.int_of_str StageSamples.workflow_service
      (StageSamples.post_world (StageSamples.created 77 "https://example.com/?p=77")
         (Returned true))
      (mock_brief (Samples.full_payload Samples.callback_endpoint))
      (ContentStr StageSamples.plain_text) (Some 5%Z)
    = (Returned (Some r), calls)
    ∧ fr_category_update r = not_applicable
    ∧ bpr_status (fr_blog_post r) = "success".
Proof.
  destruct (single_post_flow StageSamples.int_of_str StageSamples.workflow_service
              StageSamples.service
              (StageSamples.post_world (StageSamples.created 77 "https://example.com/?p=77")
                 (Returned true))
              (mock_brief (Samples.full_payload Samples.callback_endpoint))
              StageSamples.plain_text (Some 5%Z))
    as (r & calls & Heq & Hcat & _ & _ & _ & Hok).
  - reflexivity.
  - apply mock_brief_single.
  - apply mock_brief_single.
  - exists r, calls. split; [exact Heq|]. split; [exact Hcat|].
    apply Hok. exists "pool tables", 77%Z.
    split; [reflexivity|]. split; [reflexivity|].
    split; [by exists 201%Z, (Some "https://example.com/?p=77")|]. split; [discriminate|].
    vm_compute in Heq. by simplify_eq.
Defined.

(** *** The publishing stage: dual content *)

(** X27. A brief asks for dual content, but the text does not hold the two
    markers in order: the whole text is posted exactly as for the same brief
    without the recommendation, and no category is touched. *)
Theorem dual_without_markers_as_single int_of_str self w brief content text img :
  is_dual brief → is_Some (fields brief !! "keyword") →
  (content = ContentStr text ∨ ∃ ge, content = ContentPair (Some text) ge) →
  split_dual text = None →
  post_content_to_wordpress int_of_str self w brief content img
  = post_content_to_wordpress int_of_str self w (single_post_brief brief) content img.
Proof.
  intros Hd [kw Hk] Hc Hsplit. unfold post_content_to_wordpress, single_post_brief, is_dual in *.
  destruct (wp_service self) as [wp|]; [|done]. simpl.
  rewrite (bool_decide_eq_false_2 (fields brief = ∅)).
  2: { intros H. rewrite H in Hk. by rewrite lookup_empty in Hk. }
  rewrite (bool_decide_eq_false_2 (delete "content_recommendation" (fields brief) = ∅)).
  2: { intros H. apply (f_equal (λ m : Payload, m !! "keyword")) in H.
       rewrite lookup_delete_ne, Hk, lookup_empty in H by done. done. }
  simpl. rewrite Hd, lookup_delete_eq, lookup_delete_ne, Hk by done. simpl.
  destruct Hc as [-> | [ge ->]]; simpl.
  - by rewrite Hsplit.
  - destruct (truthy_str ge && negb (negb (String.eqb text ""))); [done|]. by rewrite Hsplit.
Qed.

Lemma dual_without_markers_as_single_witness :
  post_content_to_wordpress StageSamples.int_of_str StageSamples.workflow_service
    (StageSamples.post_world (StageSamples.created 77 "https://example.com/?p=77")
       (Returned true))
    StageSamples.dual_brief (ContentStr StageSamples.plain_text) None
  = post_content_to_wordpress StageSamples.int_of_str StageSamples.workflow_service
      (StageSamples.post_world (StageSamples.created 77 "https://example.com/?p=77")
         (Returned true))
      (single_post_brief StageSamples.dual_brief) (ContentStr StageSamples.plain_text) None.
Proof.
  apply (dual_without_markers_as_single StageSamples.int_of_str StageSamples.workflow_service
           (StageSamples.post_world (StageSamples.created 77 "https://example.com/?p=77")
              (Returned true))
           StageSamples.dual_brief (ContentStr StageSamples.plain_text)
           StageSamples.plain_text None).
  - reflexivity.
  - exists (VStr "pool tables"). reflexivity.
  - left. reflexivity.
  - vm_compute. reflexivity.
Defined.


(** *** The publishing stage: the category draft *)









(** *** The worker with the two stages in place *)

Lemma wire_rest int_of_str self iw pw payload env :
  db_conn (wire int_of_str self iw pw payload env) = db_conn env
  ∧ db_now (wire int_of_str self iw pw payload env) = db_now env
  ∧ init_services (wire int_of_str self iw pw payload env) = init_services env
  ∧ generate_content (wire int_of_str self iw pw payload env) = generate_content env
  ∧ wp_credentials (wire int_of_str self iw pw payload env) = wp_credentials env
  ∧ requests_post (wire int_of_str self iw pw payload env) = requests_post env.
Proof.
  unfold wire.
  destruct (generate_content env) as [[[c|] ge]|m] eqn:E; simpl; rewrite ?E; done.
Qed.

Lemma wire_stages int_of_str self iw pw payload env c ge :
  generate_content env = Returned (Some c, ge) →
  Worker.generate_and_upload_featured_image (wire int_of_str self iw pw payload env)
  = Returned (generate_and_upload_featured_image self iw (item payload "keyword")
                (String.substring 0 500 c)).1
  ∧ Worker.post_content_to_wordpress (wire int_of_str self iw pw payload env)
    = to_outcome
        (post_content_to_wordpress int_of_str self pw (mock_brief payload) (ContentStr c)
           (generate_and_upload_featured_image self iw (item payload "keyword")
              (String.substring 0 500 c)).1).1.
Proof. intros Hg. unfold wire. by rewrite Hg. Qed.

Lemma wire_claimed int_of_str self iw pw payload env task (tbl : Table) :
  claimed env task payload tbl → claimed (wire int_of_str self iw pw payload env) task payload tbl.
Proof.
  destruct (wire_rest int_of_str self iw pw payload env) as (Hc & Hn & _).
  unfold claimed. by rewrite Hc, Hn.
Qed.

Lemma wire_delivered int_of_str self iw pw payload env :
  callback_delivered env payload →
  callback_delivered (wire int_of_str self iw pw payload env) payload.
Proof.
  destruct (wire_rest int_of_str self iw pw payload env) as (_ & _ & _ & _ & Hw & Hr).
  unfold callback_delivered. by rewrite Hw, Hr.
Qed.

(** With the publishing stage in place the category part never reports an
    error to the worker. *)
Lemma wire_category_ok int_of_str self iw pw payload env :
  (∃ c ge, generate_content env = Returned (Some c, ge)) →
  ¬ category_update_failed (wire int_of_str self iw pw payload env).
Proof.
  intros (c & ge & Hg) (post & cu & Hp & Hcu & Hst).
  destruct (wire_stages int_of_str self iw pw payload env c ge Hg) as [_ Hpost].
  rewrite Hpost in Hp. clear Hpost.
  destruct (wp_service self) as [wp|] eqn:Hwp.
  - destruct (mock_brief_single payload) as (Hd & Hne & _).
    rewrite (post_single _ _ _ _ _ _ _ Hwp Hd Hne) in Hp.
    destruct (create_blog_post_plain wp pw (keyword_of (mock_brief payload)) (Some c)
                (generate_and_upload_featured_image self iw (item payload "keyword")
                   (String.substring 0 500 c)).1) as (bp & calls & Heq & _).
    rewrite Heq in Hp. simpl in Hp. simplify_eq. simpl in Hcu. by simplify_eq.
  - unfold post_content_to_wordpress in Hp. rewrite Hwp in Hp. simpl in Hp. done.
Qed.

(** X29. With the image and publishing stages in place, a claimed task whose
    callback is delivered ends in one of two ways: 'completed' with its
    [last_error] cleared, or 'error' with a message. The category warning
    under a 'completed' status cannot occur, since the brief the worker
    passes never asks for a category update. *)
Theorem completed_means_no_error int_of_str self iw pw env task payload (tbl : Table) :
  claimed env task payload tbl → init_services env = InitOk →
  callback_delivered env payload →
  last (process_single_task (wire int_of_str self iw pw payload env) task tbl).2
  = Some (EvUpdateTaskStatus (t_task_id task) completed None None)
  ∨ ∃ msg,
      last (process_single_task (wire int_of_str self iw pw payload env) task tbl).2
      = Some (EvUpdateTaskStatus (t_task_id task) error None (Some msg)).
Proof.
  intros Hcl Hinit Hdel.
  pose proof (wire_claimed int_of_str self iw pw payload env task tbl Hcl) as Hcl'.
  pose proof (wire_delivered int_of_str self iw pw payload env Hdel) as Hdel'.
  destruct (wire_rest int_of_str self iw pw payload env) as (_ & _ & Hi & Hg & _).
  rewrite <- Hi in Hinit.
  rewrite (final_write_delivered _ _ _ _ Hcl' Hinit Hdel').
  set (env' := wire int_of_str self iw pw payload env) in *.
  destruct (run_task_status env' task payload
              (initial_callback_payload (t_task_id task) payload)) as [Hc | He].
  - left. rewrite Hc.
    pose proof (proj1 (run_task_completed env' task payload _) Hc) as Hok.
    destruct (run_task_succeeded env' task payload
                (initial_callback_payload (t_task_id task) payload) Hok) as (_ & Hnone & _).
    rewrite Hnone; [done|].
    apply wire_category_ok.
    destruct Hok as (_ & c & ge & _ & _ & _ & Hgen & _).
    exists c, ge. by rewrite <- Hg.
  - right. rewrite He.
    destruct (run_task_error_message env' task payload He) as [m Hm].
    rewrite Hm. by exists m.
Qed.

Lemma completed_means_no_error_witness :
  last (process_single_task
          (wire StageSamples.int_of_str StageSamples.workflow_service StageSamples.image_world
             (StageSamples.post_world (StageSamples.created 77 "https://example.com/?p=77")
                (Returned true))
             (Samples.full_payload Samples.callback_endpoint) Samples.happy_env)
          (Samples.task_with (Some (Samples.full_payload Samples.callback_endpoint)))
          Samples.one_task).2
  = Some (EvUpdateTaskStatus "task-1" completed None None)
  ∨ ∃ msg,
      last (process_single_task
              (wire StageSamples.int_of_str StageSamples.workflow_service
                 StageSamples.image_world
                 (StageSamples.post_world
                    (StageSamples.created 77 "https://example.com/?p=77") (Returned true))
                 (Samples.full_payload Samples.callback_endpoint) Samples.happy_env)
              (Samples.task_with (Some (Samples.full_payload Samples.callback_endpoint)))
              Samples.one_task).2
      = Some (EvUpdateTaskStatus "task-1" error None (Some msg)).
Proof.
  apply (completed_means_no_error StageSamples.int_of_str StageSamples.workflow_service
           StageSamples.image_world
           (StageSamples.post_world (StageSamples.created 77 "https://example.com/?p=77")
              (Returned true))
           Samples.happy_env
           (Samples.task_with (Some (Samples.full_payload Samples.callback_endpoint)))
           (Samples.full_payload Samples.callback_endpoint) Samples.one_task).
  - apply sample_claimed. by left.
  - reflexivity.
  - apply (sample_delivered true _ _ "https://example.com/wp-json/acb/v1/callback").
    discriminate.
Defined.

(** X30. When the request that creates the post gets no answer or an error
    status, the task ends 'error' and the stored message is "Content
    generated, but WP post creation failed: Unknown WP error": the result of
    the publishing stage has no 'error' entry in this case, so nothing of
    the failure reaches the message. *)
Theorem failed_request_reported_as_unknown int_of_str self wp iw pw env task payload
    (tbl : Table) c ge k :
  claimed env task payload tbl → init_services env = InitOk →
  t_task_type task = "generate_content" →
  generate_content env = Returned (Some c, ge) → c ≠ "" →
  wp_service self = Some wp → item payload "keyword" = VStr k →
  request_failed (create_post_http pw) →
  callback_delivered env payload →
  last (process_single_task (wire int_of_str self iw pw payload env) task tbl).2
  = Some (EvUpdateTaskStatus (t_task_id task) error None
            (Some "Content generated, but WP post creation failed: Unknown WP error")).
Proof.
  intros Hcl Hinit Hty Hg Hc Hwp Hk Hfail Hdel.
  pose proof (wire_claimed int_of_str self iw pw payload env task tbl Hcl) as Hcl'.
  pose proof (wire_delivered int_of_str self iw pw payload env Hdel) as Hdel'.
  destruct (wire_rest int_of_str self iw pw payload env) as (_ & _ & Hi & Hgen & _).
  destruct (wire_stages int_of_str self iw pw payload env c ge Hg) as [Himg Hpost].
  rewrite <- Hi in Hinit. rewrite <- Hgen in Hg.
  destruct (mock_brief_single payload) as (Hd & Hne & Hkw).
  rewrite (post_single _ _ _ _ _ _ _ Hwp Hd Hne) in Hpost.
  destruct (create_blog_post_plain wp pw (keyword_of (mock_brief payload)) (Some c)
              (generate_and_upload_featured_image self iw (item payload "keyword")
                 (String.substring 0 500 c)).1) as (bp & calls & Heq & _ & _ & _ & _ & Hf).
  rewrite Heq in Hpost. simpl in Hpost.
  destruct (Hf Hfail) as [Hst Herr]; [exists k; by rewrite Hkw|].
  rewrite (publish_failure_written _ _ _ _ c ge _ _ _ Hcl' Hinit Hty Hg Hc Himg Hpost
             eq_refl).
  - simpl. by rewrite Herr.
  - simpl. by rewrite Hst.
  - done.
Qed.

Lemma failed_request_reported_as_unknown_witness :
  last (process_single_task
          (wire StageSamples.int_of_str StageSamples.workflow_service StageSamples.image_world
             (StageSamples.post_world (Responded 503 (TextBody "Service Unavailable"))
                (Returned true))
             (Samples.full_payload Samples.callback_endpoint) Samples.happy_env)
          (Samples.task_with (Some (Samples.full_payload Samples.callback_endpoint)))
          Samples.one_task).2
  = Some (EvUpdateTaskStatus "task-1" error None
            (Some "Content generated, but WP post creation failed: Unknown WP error")).
Proof.
  apply (failed_request_reported_as_unknown StageSamples.int_of_str
           StageSamples.workflow_service StageSamples.service StageSamples.image_world
           (StageSamples.post_world (Responded 503 (TextBody "Service Unavailable"))
              (Returned true))
           Samples.happy_env
           (Samples.task_with (Some (Samples.full_payload Samples.callback_endpoint)))
           (Samples.full_payload Samples.callback_endpoint) Samples.one_task
           "<h2>Pool tables</h2><p>...</p>" None "pool tables").
  - apply sample_claimed. by left.
  - reflexivity.
  - reflexivity.
  - reflexivity.
  - discriminate.
  - reflexivity.
  - reflexivity.
  - reflexivity.
  - apply (sample_delivered true _ _ "https://example.com/wp-json/acb/v1/callback").
    discriminate.
Defined.


End StagesFacts.
